(** * The closest-location finder of the MyCity voice skill

    A shallow embedding of [mycity/utilities/Finder/Finder.py] and of
    [mycity/intents/voting_intent.py].

    Python dictionaries are objects with identity: a record fetched once is
    reached through every list that holds it, and a function that is handed
    one may change it in place.  Dictionaries therefore live in a store and
    are passed around by location; a computation threads the store and the
    finder's own [output_speech] attribute, and ends either with a value or
    with a raised exception. *)

From Stdlib Require Import ZArith Lia Ascii String.
From stdpp Require Import base option list strings gmap fin_maps pretty.

Open Scope string_scope.

(** ** Values, exceptions and the store *)

(** The exceptions the modelled code can raise.  [BadReference] is not a
    Python exception: it marks a location outside the store, which no Python
    program can hold.  [NotModelled] is not one either: it marks a format
    string with a replacement field outside the fragment modelled below. *)
Inductive exn :=
  | KeyError | NameError | ValueError | TypeError | IndexError
  | AttributeError | BadReference | NotModelled.

(** What a dictionary field holds: the text of a CSV cell or feature
    attribute, or a number (the distance service reports metres). *)
Inductive Val :=
  | VNum (n : Z)
  | VStr (s : string).

#[global] Instance exn_eq_dec : EqDecision exn.
Proof. solve_decision. Defined.

#[global] Instance Val_eq_dec : EqDecision Val.
Proof. solve_decision. Defined.

Abbreviation Dict := (gmap string Val).

Definition loc := nat.

(** A Python object as the finder passes it around: [None] or a dictionary. *)
Inductive obj :=
  | PyNone
  | PyDict (l : loc).

#[global] Instance obj_eq_dec : EqDecision obj.
Proof. solve_decision. Defined.

(** Names bound at the top level of Finder.py are modules and one class. *)
Inductive global_obj :=
  | PyModule (name : string)
  | PyClass (name : string) (attrs : list (string * string)).

(** What the attribute [output_speech] of a finder holds. *)
Inductive speech :=
  | Str (s : string)
  | Global (g : global_obj).

Record state := mkState {
  heap : list Dict;
  self_output_speech : speech
}.

Inductive outcome (A : Type) :=
  | Ret (a : A)
  | Raise (e : exn).
Arguments Ret {A} a.
Arguments Raise {A} e.

(** A computation over a threaded state [S]: what a raise leaves behind is
    the state reached so far, nothing is rolled back. *)
Definition ST (S A : Type) : Type := S → outcome A * S.

Definition ret {S A} (a : A) : ST S A := λ st, (Ret a, st).
Definition raise {S A} (e : exn) : ST S A := λ st, (Raise e, st).
Definition bind {S A B} (m : ST S A) (k : A → ST S B) : ST S B :=
  λ st, match m st with
        | (Ret a, st') => k a st'
        | (Raise e, st') => (Raise e, st')
        end.
Definition lift {S A} (o : outcome A) : ST S A := λ st, (o, st).

Abbreviation M := (ST state).

Declare Scope py_scope.
Delimit Scope py_scope with py.
Notation "x <- c1 ;; c2" := (bind c1 (λ x, c2))
  (at level 100, c1 at next level, right associativity) : py_scope.
Notation "c1 ;; c2" := (bind c1 (λ _, c2))
  (at level 100, right associativity) : py_scope.
Open Scope py_scope.

(** [try m except e: h] *)
Definition try_except {S A} (m : ST S A) (e : exn) (h : ST S A) : ST S A :=
  λ st, match m st with
        | (Raise e', st') => if decide (e' = e) then h st' else (Raise e', st')
        | r => r
        end.

Definition deref (l : loc) : M Dict :=
  λ st, match heap st !! l with
        | Some d => (Ret d, st)
        | None => (Raise BadReference, st)
        end.

(** A dictionary display allocates a new object. *)
Definition alloc (d : Dict) : M loc :=
  λ st, (Ret (length (heap st)), mkState (heap st ++ [d]) (self_output_speech st)).

(** [d[k]] *)
Definition getitem (l : loc) (k : string) : M Val :=
  d <- deref l ;;
  match d !! k with
  | Some v => ret v
  | None => raise KeyError
  end.

(** [a < b]: numbers by value, strings by code point, nothing else. *)
Definition py_lt (a b : Val) : outcome bool :=
  match a, b with
  | VNum x, VNum y => Ret (x <? y)%Z
  | VStr x, VStr y => Ret (String.ltb x y)
  | _, _ => Raise TypeError
  end.

(** [str(v)] *)
Definition py_str (v : Val) : string :=
  match v with
  | VNum n => pretty n
  | VStr s => s
  end.

(** ** [str.format]

    The template is read left to right and each replacement field is looked
    up when its closing brace is reached, so the first fault met is the one
    raised.  Doubled braces are literal braces.  A field with an empty name
    takes the next positional argument, an all-digit name the argument at
    that index, any other name the keyword argument of that name.
    Replacement fields are plain names, as the speech templates of the skill
    write them: a field with a conversion, a format specification or an
    attribute or index access (one of the characters [!], [:], [.] and [[])
    is outside this model and ends the scan with [NotModelled], whatever
    Python would do with it.  Strings are ASCII, and the largest index is
    that of a 64-bit build. *)

Inductive numbering :=
  | Unset
  | Auto (next : nat)
  | Manual.

Definition digit_of (c : ascii) : option N :=
  let n := N_of_ascii c in
  if (48 <=? n)%N && (n <=? 57)%N then Some (n - 48)%N else None.

Definition PY_SSIZE_T_MAX : N := 9223372036854775807.

(** What a field name is, read as a number: not all digits, an index, or
    digits that run past the largest index. *)
Inductive field_index :=
  | NotAnIndex
  | Index (i : N)
  | TooManyDigits.

Fixpoint get_integer (s : string) (acc : N) : field_index :=
  match s with
  | EmptyString => Index acc
  | String c rest =>
      match digit_of c with
      | Some d =>
          if ((PY_SSIZE_T_MAX - d) / 10 <? acc)%N then TooManyDigits
          else get_integer rest (acc * 10 + d)%N
      | None => NotAnIndex
      end
  end.

Definition positional (args : list Val) (i : nat) : outcome Val :=
  match args !! i with
  | Some v => Ret v
  | None => Raise IndexError
  end.

Definition get_field (name : string) (num : numbering)
    (args : list Val) (kwargs : Dict) : outcome (Val * numbering) :=
  if decide (name = EmptyString) then
    match num with
    | Manual => Raise ValueError
    | Unset => match positional args 0 with
               | Ret v => Ret (v, Auto 1)
               | Raise e => Raise e
               end
    | Auto n => match positional args n with
                | Ret v => Ret (v, Auto (S n))
                | Raise e => Raise e
                end
    end
  else
    match get_integer name 0 with
    | TooManyDigits => Raise ValueError
    | Index i =>
        match num with
        | Auto _ => Raise ValueError
        | _ => match positional args (N.to_nat i) with
               | Ret v => Ret (v, Manual)
               | Raise e => Raise e
               end
        end
    | NotAnIndex =>
        match kwargs !! name with
        | Some v => Ret (v, num)
        | None => Raise KeyError
        end
    end.

Definition is_char (c d : ascii) : bool := bool_decide (c = d).

(** The characters that start a conversion, a format specification, an
    attribute access or an index access inside a replacement field. *)
Definition starts_field_syntax (c : ascii) : bool :=
  is_char c "!" || is_char c ":" || is_char c "." || is_char c "[".

(** [field] is [None] in literal text and [Some name] inside a replacement
    field whose name so far is [name]; [out] is the text produced so far. *)
Fixpoint format_scan (s : string) (field : option string) (num : numbering)
    (args : list Val) (kwargs : Dict) (out : string) : outcome string :=
  match field with
  | None =>
      match s with
      | EmptyString => Ret out
      | String c rest =>
          if is_char c "{" then
            match rest with
            | String c2 rest2 =>
                if is_char c2 "{"
                then format_scan rest2 None num args kwargs (out +:+ "{")
                else format_scan rest (Some EmptyString) num args kwargs out
            | EmptyString => Raise ValueError
            end
          else if is_char c "}" then
            match rest with
            | String c2 rest2 =>
                if is_char c2 "}"
                then format_scan rest2 None num args kwargs (out +:+ "}")
                else Raise ValueError
            | EmptyString => Raise ValueError
            end
          else format_scan rest None num args kwargs (out +:+ String c EmptyString)
      end
  | Some name =>
      match s with
      | EmptyString => Raise ValueError
      | String c rest =>
          if is_char c "}" then
            match get_field name num args kwargs with
            | Ret (v, num') =>
                format_scan rest None num' args kwargs (out +:+ py_str v)
            | Raise e => Raise e
            end
          else if is_char c "{" then Raise ValueError
          else if starts_field_syntax c then Raise NotModelled
          else format_scan rest (Some (name +:+ String c EmptyString)) num args kwargs out
      end
  end.

(** [template.format( *args, **kwargs)] *)
Definition py_format (template : string) (args : list Val) (kwargs : Dict)
    : outcome string :=
  format_scan template None Unset args kwargs EmptyString.

(** ** The request

    Modelled from the spec: the class [MyCityRequestDataModel] is not part of
    the sources at hand; the spec describes it as a request object exposing a
    session-scoped key/value store. *)
Record MyCityRequestDataModel := mkRequest {
  session_attributes : Dict
}.

(** ** Finder.py *)

(** What Finder.py imports and does not define itself. *)
Class FinderServices := {
  (** [g_maps_utils.DRIVING_DISTANCE_VALUE_KEY] *)
  DRIVING_DISTANCE_VALUE_KEY : string;
  (** [csv_utils.add_city_and_state_to_records(records, address_key, city, state)] *)
  csv_utils_add_city_and_state_to_records :
    list loc → string → string → string → M (list loc);
  (** [g_maps_utils._get_driving_info(origin, address_key, destinations)] *)
  g_maps_utils_get_driving_info : string → string → list Val → M (list loc);
  (** [address_utils.build_origin_address(req)] *)
  address_utils_build_origin_address : MyCityRequestDataModel → M string
}.

Definition CITY : string := "Boston".
Definition STATE : string := "MA".
Definition ERROR_MESSAGE : string := "Uh oh. Something went wrong!".

(** The body of [class Finder] binds these names in the class, not in the
    module. *)
Definition Finder_class : global_obj :=
  PyClass "Finder"
    [("CITY", CITY); ("STATE", STATE); ("ERROR_MESSAGE", ERROR_MESSAGE)].

(** The module's own top level: six imports and one class statement. *)
Definition module_globals : gmap string global_obj :=
  list_to_map
    [("csv", PyModule "csv");
     ("requests", PyModule "requests");
     ("address_utils", PyModule "mycity.utilities.address_utils");
     ("csv_utils", PyModule "mycity.utilities.csv_utils");
     ("gis_utils", PyModule "mycity.utilities.gis_utils");
     ("g_maps_utils", PyModule "mycity.utilities.google_maps_utils");
     ("Finder", Finder_class)].

(** A bare name inside a method that is neither a local nor a builtin is
    looked up in the module's globals; the class body is not a scope of the
    methods defined in it. *)
Definition load_global {S} (name : string) : ST S global_obj :=
  match module_globals !! name with
  | Some g => ret g
  | None => raise NameError
  end.

(** The instance attributes set by [__init__], [output_speech] apart, which
    is the one attribute assigned again later and lives in the state. *)
Record Finder := mkFinder {
  resource_url : string;
  address_key : string;
  field_formatter : obj → M obj;
  origin_address : string
}.

Definition get_self_output_speech : M speech :=
  λ st, (Ret (self_output_speech st), st).

Definition set_self_output_speech (s : speech) : M unit :=
  λ st, (Ret tt, mkState (heap st) s).

Definition __init__ `{FinderServices} (req : MyCityRequestDataModel)
    (resource_url address_key output_speech : string)
    (output_speech_prep_func : obj → M obj) : M Finder :=
  set_self_output_speech (Str output_speech) ;;
  origin <- address_utils_build_origin_address req ;;
  ret (mkFinder resource_url address_key output_speech_prep_func origin).

Definition start (self : Finder) : M unit := ret tt.

Definition get_output_speech (self : Finder) : M speech :=
  get_self_output_speech.

(** [s.format] exists on a string only. *)
Definition format_method (s : speech) : M string :=
  match s with
  | Str template => ret template
  | Global _ => raise AttributeError
  end.

(** [**format_keys] *)
Definition unpack_keywords (format_keys : obj) : M Dict :=
  match format_keys with
  | PyDict l => deref l
  | PyNone => raise TypeError
  end.

Definition set_output_speech (self : Finder) (format_keys : obj) : M unit :=
  try_except
    (speech <- get_self_output_speech ;;
     template <- format_method speech ;;
     kwargs <- unpack_keywords format_keys ;;
     formatted <- lift (py_format template [] kwargs) ;;
     set_self_output_speech (Str formatted))
    KeyError
    (message <- load_global "ERROR_MESSAGE" ;;
     set_self_output_speech (Global message)).

Fixpoint get_all_destinations (self : Finder) (records : list loc)
    : M (list Val) :=
  match records with
  | [] => ret []
  | record :: rest =>
      destination <- getitem record (address_key self) ;;
      destinations <- get_all_destinations self rest ;;
      ret (destination :: destinations)
  end.

Definition get_driving_times_to_destinations `{FinderServices}
    (self : Finder) (destinations : list Val) : M (list loc) :=
  g_maps_utils_get_driving_info (origin_address self) (address_key self)
    destinations.

(** The builtin [min(iterable, key=...)]: the key of every item is taken
    once, in order, and an item replaces the one kept only when its key is
    strictly less. *)
Fixpoint min_loop (key : loc → M Val) (minitem : loc) (minval : Val)
    (rest : list loc) : M loc :=
  match rest with
  | [] => ret minitem
  | item :: rest' =>
      val <- key item ;;
      less <- lift (py_lt val minval) ;;
      if less : bool then min_loop key item val rest'
      else min_loop key minitem minval rest'
  end.

Definition py_min (iterable : list loc) (key : loc → M Val) : M loc :=
  match iterable with
  | [] => raise ValueError
  | item :: rest => val <- key item ;; min_loop key item val rest
  end.

Definition get_closest_destination `{FinderServices} (self : Finder)
    (destination_dictionaries : list loc) : M loc :=
  py_min destination_dictionaries
    (λ destination, getitem destination DRIVING_DISTANCE_VALUE_KEY).

(** Falling off the end of the loop returns [None]. *)
Fixpoint get_closest_record_with_driving_info (self : Finder)
    (driving_info : loc) (records : list loc) : M obj :=
  match records with
  | [] => ret PyNone
  | record :: rest =>
      a <- getitem driving_info (address_key self) ;;
      b <- getitem record (address_key self) ;;
      if decide (a = b) then
        r <- deref record ;;
        d <- deref driving_info ;;
        merged <- alloc (d ∪ r) ;;
        ret (PyDict merged)
      else get_closest_record_with_driving_info self driving_info rest
  end.

Definition add_city_and_state_to_records `{FinderServices} (self : Finder)
    (records : list loc) : M (list loc) :=
  csv_utils_add_city_and_state_to_records records (address_key self) CITY STATE.

Definition _start `{FinderServices} (self : Finder) (records : list loc)
    : M unit :=
  records <- add_city_and_state_to_records self records ;;
  destinations <- get_all_destinations self records ;;
  driving_times <- get_driving_times_to_destinations self destinations ;;
  closest_dest <- get_closest_destination self driving_times ;;
  closest_record <-
    get_closest_record_with_driving_info self closest_dest records ;;
  formatted_record <- field_formatter self closest_record ;;
  set_output_speech self closest_record.

(** The distance value a driving-info dictionary holds, when it is a
    number. *)
Definition distance_value `{FinderServices} (st : state) (l : loc)
    : option Z :=
  match heap st !! l with
  | Some d => match d !! DRIVING_DISTANCE_VALUE_KEY with
              | Some (VNum n) => Some n
              | _ => None
              end
  | None => None
  end.

(** The address a record or driving-info dictionary holds. *)
Definition address_of (self : Finder) (st : state) (l : loc) : option Val :=
  match heap st !! l with
  | Some d => d !! address_key self
  | None => None
  end.

(** ** voting_intent.py *)

Module voting_intent.

(** Modelled from the spec: the class [MyCityResponseDataModel] is not part
    of the sources at hand; the spec describes it as a response object with
    fields output speech (string), optional reprompt text, a card title and
    a session-termination flag.  An attribute holds [None] or a value. *)
Record MyCityResponseDataModel := mkResponse {
  output_speech : option string;
  reprompt_text : option string;
  card_title : option string;
  should_end_session : option bool
}.

Definition setattr_output_speech (r : MyCityResponseDataModel)
    (v : option string) : MyCityResponseDataModel :=
  mkResponse v (reprompt_text r) (card_title r) (should_end_session r).

Definition setattr_reprompt_text (r : MyCityResponseDataModel)
    (v : option string) : MyCityResponseDataModel :=
  mkResponse (output_speech r) v (card_title r) (should_end_session r).

Definition setattr_should_end_session (r : MyCityResponseDataModel)
    (v : option bool) : MyCityResponseDataModel :=
  mkResponse (output_speech r) (reprompt_text r) (card_title r) v.

(** What voting_intent.py imports and does not define itself. *)
Class VotingServices := {
  (** [intent_constants.CURRENT_ADDRESS_KEY] *)
  CURRENT_ADDRESS_KEY : string;
  (** [speech_constants.LOCATION_SPEECH] *)
  LOCATION_SPEECH : string;
  (** the object [MyCityResponseDataModel()] constructs *)
  new_response : MyCityResponseDataModel;
  (** [mycity_request.get_logger_string()] *)
  get_logger_string : MyCityRequestDataModel → string;
  candidates : Type;
  candidate : Type;
  ward_precinct : Type;
  (** [arcgis_utils.geocode_address_candidates(address)] *)
  geocode_address_candidates : string → outcome candidates;
  (** [arcgis_utils.select_top_address_candidate(candidates)] *)
  select_top_address_candidate : candidates → outcome candidate;
  (** [vote_utils.get_ward_precinct_info(candidate)] *)
  get_ward_precinct_info : candidate → outcome ward_precinct;
  (** [vote_utils.get_polling_location(ward_precinct)] *)
  vote_utils_get_polling_location : ward_precinct → outcome Dict
}.

(** The calls that leave the function, in the order they are made. *)
Inductive call `{VotingServices} :=
  | LoggerDebug (msg : string)
  | GeocodeAddressCandidates (address : string)
  | SelectTopAddressCandidate (cs : candidates)
  | GetWardPrecinctInfo (c : candidate)
  | GetPollingLocation (w : ward_precinct).

(** An outside call is recorded, then answered. *)
Definition outside `{VotingServices} {A} (c : call) (answer : outcome A)
    : ST (list call) A :=
  λ log, (answer, (log ++ [c])%list).

Definition CARD_TITLE : string := "Voting Intent".

(** [d[k]] on a dictionary held by value *)
Definition subscript {S} (d : Dict) (k : string) : ST S Val :=
  match d !! k with
  | Some v => ret v
  | None => raise KeyError
  end.

(** [v += suffix] with a string on the right *)
Definition iadd_str {S} (v : Val) (suffix : string) : ST S string :=
  match v with
  | VStr s => ret (s +:+ suffix)
  | VNum _ => raise TypeError
  end.

Definition get_polling_location `{VotingServices}
    (mycity_request : MyCityRequestDataModel)
    : ST (list call) MyCityResponseDataModel :=
  outside (LoggerDebug ("MyCityRequestDataModel received:" +:+
                        get_logger_string mycity_request)) (Ret tt) ;;
  let mycity_response := new_response in
  current_address <-
    subscript (session_attributes mycity_request) CURRENT_ADDRESS_KEY ;;
  current_address <- iadd_str current_address ", Boston, MA" ;;
  candidates <- outside (GeocodeAddressCandidates current_address)
                  (geocode_address_candidates current_address) ;;
  top_candidate <- outside (SelectTopAddressCandidate candidates)
                     (select_top_address_candidate candidates) ;;
  ward_precinct <- outside (GetWardPrecinctInfo top_candidate)
                     (get_ward_precinct_info top_candidate) ;;
  poll_location <- outside (GetPollingLocation ward_precinct)
                     (vote_utils_get_polling_location ward_precinct) ;;
  name <- subscript poll_location "Location Name" ;;
  address <- subscript poll_location "Location Address" ;;
  output_speech <- lift (py_format LOCATION_SPEECH [name; address] ∅) ;;
  let mycity_response :=
    setattr_output_speech mycity_response (Some output_speech) in
  let mycity_response := setattr_reprompt_text mycity_response None in
  let mycity_response :=
    setattr_reprompt_text mycity_response (Some CARD_TITLE) in
  let mycity_response :=
    setattr_should_end_session mycity_response (Some true) in
  ret mycity_response.

(** The debug line the function logs on entry. *)
Definition received `{VotingServices} (req : MyCityRequestDataModel) : call :=
  LoggerDebug ("MyCityRequestDataModel received:" +:+ get_logger_string req).

Definition is_geocode_call `{VotingServices} (c : call) : bool :=
  match c with
  | GeocodeAddressCandidates _ => true
  | _ => false
  end.

End voting_intent.

(** ** A concrete world

    The collaborators the finder imports, made concrete for running the
    pipeline on a small record set. *)

Definition store (l : loc) (d : Dict) : M unit :=
  λ st, (Ret tt, mkState (<[l := d]> (heap st)) (self_output_speech st)).

(** Modelled from the spec: [csv_utils.add_city_and_state_to_records] is not
    part of the sources at hand; the spec has it add fixed city and state
    fields to every record.  The spec does not name the two fields; they are
    [City] and [State] here.  Each record is changed in place and the same
    records are returned. *)
Fixpoint boston_add_city_and_state (records : list loc)
    (address_key city state : string) : M (list loc) :=
  match records with
  | [] => ret []
  | record :: rest =>
      d <- deref record ;;
      store record (<["City" := VStr city]> (<["State" := VStr state]> d)) ;;
      rest' <- boston_add_city_and_state rest address_key city state ;;
      ret (record :: rest')
  end.

(** What the distance service knows: metres, distance text and duration
    text by destination. *)
Definition road_table : gmap string (Z * string * string) :=
  list_to_map
    [("5 Main St", (1931%Z, "1.2 mi", "6 mins"));
     ("20 Main St", (644%Z, "0.4 mi", "2 mins"));
     ("1 City Hall Sq", (644%Z, "0.4 mi", "3 mins"))].

(** Modelled from the spec: [g_maps_utils._get_driving_info] is not part of
    the sources at hand; the spec has it return, for one origin and many
    destinations, one mapping per destination holding the address under the
    address key, the distance value, the distance text and the duration
    text.  A destination the service does not know is a malformed answer. *)
Fixpoint boston_get_driving_info (origin address_key : string)
    (destinations : list Val) : M (list loc) :=
  match destinations with
  | [] => ret []
  | destination :: rest =>
      match road_table !! py_str destination with
      | Some (metres, distance_text, duration_text) =>
          info <- alloc (<[address_key := destination]>
                         (<["Driving distance" := VNum metres]>
                          (<["Driving distance text" := VStr distance_text]>
                           {["Driving time text" := VStr duration_text]}))) ;;
          rest' <- boston_get_driving_info origin address_key rest ;;
          ret (info :: rest')
      | None => raise ValueError
      end
  end.

(** Modelled from the spec: [address_utils.build_origin_address] is not part
    of the sources at hand; the spec has it read the origin address from the
    session state and fail when the session lacks it. *)
Definition boston_build_origin_address (req : MyCityRequestDataModel)
    : M string :=
  match session_attributes req !! "currentAddress" with
  | Some v => ret (py_str v)
  | None => raise KeyError
  end.

Definition boston : FinderServices := {|
  DRIVING_DISTANCE_VALUE_KEY := "Driving distance";
  csv_utils_add_city_and_state_to_records := boston_add_city_and_state;
  g_maps_utils_get_driving_info := boston_get_driving_info;
  address_utils_build_origin_address := boston_build_origin_address
|}.

(** Two ways of writing a preparation function: one rewrites the record it
    is given and hands it back, the other leaves it alone and returns a
    prepared copy. *)
Definition spoken (v : Val) : Val :=
  match v with
  | VStr s => VStr ("the " +:+ s)
  | VNum n => VNum n
  end.

Definition prepare (d : Dict) : Dict :=
  match d !! "Name" with
  | Some v => <["Name" := spoken v]> d
  | None => d
  end.

Definition prepare_in_place (record : obj) : M obj :=
  match record with
  | PyDict l => d <- deref l ;; store l (prepare d) ;; ret (PyDict l)
  | PyNone => raise TypeError
  end.

Definition prepare_copy (record : obj) : M obj :=
  match record with
  | PyDict l => d <- deref l ;; l' <- alloc (prepare d) ;; ret (PyDict l')
  | PyNone => raise TypeError
  end.

Definition polls_template : string :=
  "Vote at {Name}, {Address}, {Driving distance text} away.".

Definition polls_finder (prep : obj → M obj) : Finder :=
  mkFinder "https://example.org/polls.csv" "Address" prep "10 Main St".

(** Two polling places, the nearer one second. *)
Definition two_polls : state :=
  mkState
    [ <["Address" := VStr "5 Main St"]> {["Name" := VStr "Fire House"]};
      <["Address" := VStr "20 Main St"]> {["Name" := VStr "Library"]} ]
    (Str polls_template).

(** The same after the distance service has answered. *)
Definition two_polls_measured : state :=
  mkState
    [ <["Address" := VStr "5 Main St"]> {["Name" := VStr "Fire House"]};
      <["Address" := VStr "20 Main St"]> {["Name" := VStr "Library"]};
      <["Address" := VStr "5 Main St"]> {["Driving distance" := VNum 1931]};
      <["Address" := VStr "20 Main St"]> {["Driving distance" := VNum 644]};
      <["Address" := VStr "1 City Hall Sq"]> {["Driving distance" := VNum 644]} ]
    (Str polls_template).

Definition no_polls : state := mkState [] (Str polls_template).

(** A concrete world for the voting intent. *)
Definition boston_votes : voting_intent.VotingServices := {|
  voting_intent.CURRENT_ADDRESS_KEY := "currentAddress";
  voting_intent.LOCATION_SPEECH := "Your polling location is {}, at {}.";
  voting_intent.new_response := voting_intent.mkResponse None None None None;
  voting_intent.get_logger_string := λ _, "<request>";
  voting_intent.candidates := list string;
  voting_intent.candidate := string;
  voting_intent.ward_precinct := string;
  voting_intent.geocode_address_candidates := λ address, Ret [address];
  voting_intent.select_top_address_candidate :=
    λ cs, match cs with c :: _ => Ret c | [] => Raise IndexError end;
  voting_intent.get_ward_precinct_info := λ _, Ret "0305";
  voting_intent.vote_utils_get_polling_location :=
    λ w, Ret (<["Location Name" := VStr "City Hall"]>
              {["Location Address" := VStr "1 City Hall Sq"]})
|}.

Definition request_with_address : MyCityRequestDataModel :=
  mkRequest {["currentAddress" := VStr "10 Main St"]}.

Definition request_without_address : MyCityRequestDataModel :=
  mkRequest ∅.

(** The same world with another speech template, another geocoder and
    another answer of the polling-location lookup. *)
Definition votes_with (speech : string)
    (geocode : string → outcome (list string)) (location : outcome Dict)
    : voting_intent.VotingServices := {|
  voting_intent.CURRENT_ADDRESS_KEY := "currentAddress";
  voting_intent.LOCATION_SPEECH := speech;
  voting_intent.new_response := voting_intent.mkResponse None None None None;
  voting_intent.get_logger_string := λ _, "<request>";
  voting_intent.candidates := list string;
  voting_intent.candidate := string;
  voting_intent.ward_precinct := string;
  voting_intent.geocode_address_candidates := geocode;
  voting_intent.select_top_address_candidate :=
    λ cs, match cs with c :: _ => Ret c | [] => Raise IndexError end;
  voting_intent.get_ward_precinct_info := λ _, Ret "0305";
  voting_intent.vote_utils_get_polling_location := λ _, location
|}.

Definition votes_geocoder_down : voting_intent.VotingServices :=
  votes_with "{}, {}" (λ _, Raise ValueError) (Ret ∅).

Definition votes_lookup_down : voting_intent.VotingServices :=
  votes_with "{}, {}" (λ a, Ret [a]) (Raise ValueError).

Definition votes_location_without_address : voting_intent.VotingServices :=
  votes_with "{}, {}" (λ a, Ret [a])
    (Ret {["Location Name" := VStr "City Hall"]}).

Definition votes_three_fields : voting_intent.VotingServices :=
  votes_with "{}, {}, {}" (λ a, Ret [a])
    (Ret (<["Location Name" := VStr "City Hall"]>
            {["Location Address" := VStr "1 City Hall Sq"]})).

Definition request_with_number : MyCityRequestDataModel :=
  mkRequest {["currentAddress" := VNum 10]}.

(** ** Notions the statements use *)

(** The finder with another preparation function. *)
Definition with_formatter (self : Finder) (f : obj → M obj) : Finder :=
  mkFinder (resource_url self) (address_key self) f (origin_address self).

(** A preparation function with its result thrown away: the same effects,
    and [None] returned. *)
Definition returning_None (f : obj → M obj) : obj → M obj :=
  λ record, f record ;; ret PyNone.

(** [c], at index [i], is the first of the driving infos at the least
    distance. *)
Definition is_first_closest `{FinderServices} (st : state)
    (infos : list loc) (i : nat) (c : loc) : Prop :=
  infos !! i = Some c
  ∧ ∃ n, distance_value st c = Some n
         ∧ (∀ j l' n', infos !! j = Some l' →
              distance_value st l' = Some n' → (n ≤ n')%Z)
         ∧ (∀ j l' n', (j < i)%nat → infos !! j = Some l' →
              distance_value st l' = Some n' → (n < n')%Z).

(** [record], at index [j], is the first of the records that holds the
    address [a], and the records before it hold other addresses. *)
Definition is_first_match (self : Finder) (st : state) (records : list loc)
    (a : Val) (j : nat) (record : loc) : Prop :=
  records !! j = Some record
  ∧ address_of self st record = Some a
  ∧ ∀ j' l, (j' < j)%nat → records !! j' = Some l →
      ∃ b, address_of self st l = Some b ∧ b ≠ a.

(** A dictionary in the store without a distance value. *)
Definition lacks_distance `{FinderServices} (st : state) (l : loc) : Prop :=
  ∃ d, heap st !! l = Some d ∧ d !! DRIVING_DISTANCE_VALUE_KEY = None.

(** The two polling places after the city and state were added, and after
    the distance service has answered for both. *)
Definition two_polls_augmented : state :=
  (boston_add_city_and_state [0; 1]%nat "Address" CITY STATE two_polls).2.

Definition two_polls_driven : state :=
  (boston_get_driving_info "10 Main St" "Address"
     [VStr "5 Main St"; VStr "20 Main St"] two_polls_augmented).2.

(** A polling place whose record holds no address, ahead of one that
    does, and the driving info for the latter. *)
Definition nameless_poll_first : state :=
  mkState
    [ {["Name" := VStr "Fire House"]};
      <["Address" := VStr "20 Main St"]> {["Name" := VStr "Library"]};
      <["Address" := VStr "20 Main St"]> {["Driving distance" := VNum 644]} ]
    (Str polls_template).

(** The two polling places after the nearer one was merged with its
    driving info, and after that merged record was prepared in place. *)
Definition two_polls_merged : state :=
  (get_closest_record_with_driving_info (polls_finder prepare_in_place)
     3%nat [0; 1]%nat two_polls_driven).2.

Definition two_polls_prepared : state :=
  (prepare_in_place (PyDict 4) two_polls_merged).2.

(** * Properties *)

(** ** Running a computation *)

Section running.
Context {S A B : Type}.

Lemma bind_Ret (m : ST S A) (k : A → ST S B) st a st' :
  m st = (Ret a, st') → bind m k st = k a st'.
Proof. intros E. unfold bind. rewrite E. reflexivity. Qed.

Lemma bind_Raise (m : ST S A) (k : A → ST S B) st e st' :
  m st = (Raise e, st') → bind m k st = (Raise e, st').
Proof. intros E. unfold bind. rewrite E. reflexivity. Qed.

Lemma try_except_Ret (m h : ST S A) e st a st' :
  m st = (Ret a, st') → try_except m e h st = (Ret a, st').
Proof. intros E. unfold try_except. rewrite E. reflexivity. Qed.

Lemma try_except_caught (m h : ST S A) e st st' :
  m st = (Raise e, st') → try_except m e h st = h st'.
Proof.
  intros E. unfold try_except. rewrite E.
  destruct (decide (e = e)); [reflexivity | contradiction].
Qed.

Lemma try_except_passed (m h : ST S A) e e' st st' :
  m st = (Raise e', st') → e' ≠ e →
  try_except m e h st = (Raise e', st').
Proof.
  intros E Hne. unfold try_except. rewrite E.
  destruct (decide (e' = e)); [contradiction | reflexivity].
Qed.
End running.

Lemma getitem_Some st l k d v :
  heap st !! l = Some d → d !! k = Some v → getitem l k st = (Ret v, st).
Proof.
  intros Hl Hk. unfold getitem, bind, deref. rewrite Hl, Hk. reflexivity.
Qed.

Lemma getitem_None st l k d :
  heap st !! l = Some d → d !! k = None →
  getitem l k st = (Raise KeyError, st).
Proof.
  intros Hl Hk. unfold getitem, bind, deref. rewrite Hl, Hk. reflexivity.
Qed.

Lemma deref_Some st l d : heap st !! l = Some d → deref l st = (Ret d, st).
Proof. intros Hl. unfold deref. rewrite Hl. reflexivity. Qed.

(** ** Formatting *)

Example py_format_keywords :
  py_format "The closest {kind} is {Name}, {{{Driving distance}}} metres away."
    [] (<["Name" := VStr "City Hall"]> (<["kind" := VStr "poll"]>
        {["Driving distance" := VNum 644]}))
  = Ret "The closest poll is City Hall, {644} metres away.".
Proof. vm_compute. reflexivity. Qed.

Example py_format_missing_keyword :
  py_format "Go to {Name} on {Street}." [] {["Name" := VStr "City Hall"]}
  = Raise KeyError.
Proof. vm_compute. reflexivity. Qed.

Example py_format_positional :
  py_format "Your polling place is {}, {}." [VStr "City Hall"; VStr "1 Plaza"] ∅
  = Ret "Your polling place is City Hall, 1 Plaza.".
Proof. vm_compute. reflexivity. Qed.

Example py_format_positional_keywords_only :
  py_format "{0} and {Name}" [] {["Name" := VStr "City Hall"]} = Raise IndexError.
Proof. vm_compute. reflexivity. Qed.

Example py_format_stray_brace :
  py_format "{Name} }" [] {["Name" := VStr "City Hall"]} = Raise ValueError.
Proof. vm_compute. reflexivity. Qed.

Example py_format_format_spec_not_modelled :
  py_format "{Name:>12}" [] {["Name" := VStr "City Hall"]} = Raise NotModelled.
Proof. vm_compute. reflexivity. Qed.

Example py_format_too_many_digits :
  py_format "{99999999999999999999}" [VStr "City Hall"] ∅ = Raise ValueError.
Proof. vm_compute. reflexivity. Qed.

Example py_format_first_fault_wins :
  py_format "{Street} }" [] {["Name" := VStr "City Hall"]} = Raise KeyError.
Proof. vm_compute. reflexivity. Qed.

(** ** Selecting the closest destination *)

Section closest_destination.
Context `{FinderServices}.

Lemma distance_value_getitem st l n :
  distance_value st l = Some n →
  getitem l DRIVING_DISTANCE_VALUE_KEY st = (Ret (VNum n), st).
Proof.
  unfold distance_value. intros Hd.
  destruct (heap st !! l) as [d|] eqn:Hl; [|discriminate].
  destruct (d !! DRIVING_DISTANCE_VALUE_KEY) as [[m|s]|] eqn:Hk;
    try discriminate.
  injection Hd as ->. eapply getitem_Some; eassumption.
Qed.

(** What the scan keeps: the item it entered with, when nothing later is
    strictly closer, and otherwise the first later item that is strictly
    closer than everything before it and at most as far as everything
    after it. *)
Lemma min_loop_first_minimum st rest : ∀ minitem m,
  Forall (λ l, is_Some (distance_value st l)) rest →
  ∃ l n,
    min_loop (λ d, getitem d DRIVING_DISTANCE_VALUE_KEY)
      minitem (VNum m) rest st = (Ret l, st)
    ∧ (∀ j l' n', rest !! j = Some l' →
         distance_value st l' = Some n' → (n ≤ n')%Z)
    ∧ ((l = minitem ∧ n = m)
       ∨ (∃ i, rest !! i = Some l ∧ distance_value st l = Some n
               ∧ (n < m)%Z
               ∧ ∀ j l' n', (j < i)%nat → rest !! j = Some l' →
                   distance_value st l' = Some n' → (n < n')%Z)).
Proof.
  induction rest as [|item rest IH]; intros minitem m Hnum.
  - exists minitem, m. split; [reflexivity|]. split; [|left; done].
    intros j l' n' Hj. rewrite lookup_nil in Hj. discriminate.
  - apply Forall_cons in Hnum as [[v Hv] Hrest].
    cbn [min_loop].
    rewrite (bind_Ret _ _ _ _ _ (distance_value_getitem _ _ _ Hv)).
    unfold lift at 1. unfold bind at 1. cbn [py_lt].
    destruct (v <? m)%Z eqn:Hlt.
    + apply Z.ltb_lt in Hlt.
      destruct (IH item v Hrest) as (l & n & Hrun & Hall & Hcase).
      exists l, n. split; [exact Hrun|].
      assert (Hnv : (n ≤ v)%Z).
      { destruct Hcase as [[_ ->]|(i & _ & _ & Hn & _)]; lia. }
      split.
      * intros [|j] l' n' Hj Hd; cbn in Hj.
        -- injection Hj as <-. rewrite Hv in Hd. injection Hd as <-. lia.
        -- eapply Hall; eassumption.
      * right. destruct Hcase as [[-> ->]|(i & Hi & Hd & Hn & Hbefore)].
        -- exists 0%nat. repeat split; try done. intros j l' n' Hj. lia.
        -- exists (Datatypes.S i). repeat split; try done; [lia|].
           intros [|j] l' n' Hj Hl' Hd'; cbn in Hl'.
           ++ injection Hl' as <-. rewrite Hv in Hd'.
              injection Hd' as <-. lia.
           ++ eapply Hbefore; [|eassumption..]. lia.
    + apply Z.ltb_ge in Hlt.
      destruct (IH minitem m Hrest) as (l & n & Hrun & Hall & Hcase).
      exists l, n. split; [exact Hrun|].
      assert (Hnm : (n ≤ m)%Z).
      { destruct Hcase as [[_ ->]|(i & _ & _ & Hn & _)]; lia. }
      split.
      * intros [|j] l' n' Hj Hd; cbn in Hj.
        -- injection Hj as <-. rewrite Hv in Hd. injection Hd as <-. lia.
        -- eapply Hall; eassumption.
      * destruct Hcase as [[-> ->]|(i & Hi & Hd & Hn & Hbefore)].
        -- left. done.
        -- right. exists (Datatypes.S i). repeat split; try done.
           intros [|j] l' n' Hj Hl' Hd'; cbn in Hl'.
           ++ injection Hl' as <-. rewrite Hv in Hd'.
              injection Hd' as <-. lia.
           ++ eapply Hbefore; [|eassumption..]. lia.
Qed.

(** C1. On a non-empty sequence of driving-info dictionaries that each
    hold a numeric distance value, [get_closest_destination] returns an
    element whose distance is the least of all, and every element before
    it in the sequence is strictly farther: of several at the least
    distance the first in input order is returned.  Nothing is changed. *)
Theorem get_closest_destination_first_minimum
    (self : Finder) (st : state) (destination_dictionaries : list loc) :
  destination_dictionaries ≠ [] →
  Forall (λ l, is_Some (distance_value st l)) destination_dictionaries →
  ∃ i l n,
    destination_dictionaries !! i = Some l
    ∧ distance_value st l = Some n
    ∧ get_closest_destination self destination_dictionaries st = (Ret l, st)
    ∧ (∀ j l' n', destination_dictionaries !! j = Some l' →
         distance_value st l' = Some n' → (n ≤ n')%Z)
    ∧ (∀ j l' n', (j < i)%nat → destination_dictionaries !! j = Some l' →
         distance_value st l' = Some n' → (n < n')%Z).
Proof.
  intros Hne Hnum.
  destruct destination_dictionaries as [|first rest]; [done|].
  apply Forall_cons in Hnum as [[m Hm] Hrest].
  destruct (min_loop_first_minimum st rest first m Hrest)
    as (l & n & Hrun & Hall & Hcase).
  assert (Hgo : get_closest_destination self (first :: rest) st = (Ret l, st)).
  { unfold get_closest_destination, py_min.
    rewrite (bind_Ret _ _ _ _ _ (distance_value_getitem _ _ _ Hm)).
    exact Hrun. }
  destruct Hcase as [[-> ->]|(i & Hi & Hd & Hn & Hbefore)].
  - exists 0%nat, first, m. repeat split; try done.
    + intros [|j] l' n' Hj Hd; cbn in Hj.
      * injection Hj as <-. rewrite Hm in Hd. injection Hd as <-. lia.
      * eapply Hall; eassumption.
    + intros j l' n' Hj. lia.
  - exists (Datatypes.S i), l, n. repeat split; try done.
    + intros [|j] l' n' Hj Hd'; cbn in Hj.
      * injection Hj as <-. rewrite Hm in Hd'. injection Hd' as <-. lia.
      * eapply Hall; eassumption.
    + intros [|j] l' n' Hj Hl' Hd'; cbn in Hl'.
      * injection Hl' as <-. rewrite Hm in Hd'. injection Hd' as <-. lia.
      * eapply Hbefore; [|eassumption..]. lia.
Qed.
End closest_destination.

Lemma get_closest_destination_first_minimum_witness :
  ∃ i l n,
    [2; 3; 4]%nat !! i = Some l
    ∧ distance_value (H := boston) two_polls_measured l = Some n
    ∧ get_closest_destination (H := boston) (polls_finder prepare_copy)
        [2; 3; 4]%nat two_polls_measured = (Ret l, two_polls_measured)
    ∧ (∀ j l' n', [2; 3; 4]%nat !! j = Some l' →
         distance_value (H := boston) two_polls_measured l' = Some n' →
         (n ≤ n')%Z)
    ∧ (∀ j l' n', (j < i)%nat → [2; 3; 4]%nat !! j = Some l' →
         distance_value (H := boston) two_polls_measured l' = Some n' →
         (n < n')%Z).
Proof.
  apply (get_closest_destination_first_minimum (H := boston)
           (polls_finder prepare_copy) two_polls_measured [2; 3; 4]%nat).
  - discriminate.
  - repeat constructor; vm_compute; eexists; reflexivity.
Defined.

(** Of the two destinations 644 metres away the one met first is kept. *)
Example get_closest_destination_tie :
  get_closest_destination (H := boston) (polls_finder prepare_copy)
    [2; 3; 4]%nat two_polls_measured = (Ret 3%nat, two_polls_measured).
Proof. vm_compute. reflexivity. Qed.

(** ** Projecting the destinations *)

Section destinations.
Variable self : Finder.

Lemma get_all_destinations_Ret st records vs :
  Forall2 (λ l v, address_of self st l = Some v) records vs →
  get_all_destinations self records st = (Ret vs, st).
Proof.
  induction 1 as [|l v records vs Hl _ IH]; [reflexivity|].
  cbn [get_all_destinations]. unfold address_of in Hl.
  destruct (heap st !! l) as [d|] eqn:Hd; [|discriminate].
  rewrite (bind_Ret _ _ _ _ _ (getitem_Some _ _ _ _ _ Hd Hl)).
  rewrite (bind_Ret _ _ _ _ _ IH). reflexivity.
Qed.

Lemma get_all_destinations_Raise st records :
  Forall (λ l, is_Some (heap st !! l)) records →
  Exists (λ l, address_of self st l = None) records →
  get_all_destinations self records st = (Raise KeyError, st).
Proof.
  intros Hrefs. induction Hrefs as [|l records [d Hd] _ IH]; intros Hex.
  - inversion Hex.
  - cbn [get_all_destinations].
    destruct (d !! address_key self) as [v|] eqn:Hk.
    + rewrite (bind_Ret _ _ _ _ _ (getitem_Some _ _ _ _ _ Hd Hk)).
      apply bind_Raise, IH.
      apply Exists_cons in Hex as [Hl|Hrest]; [|exact Hrest].
      unfold address_of in Hl. rewrite Hd, Hk in Hl. discriminate.
    + apply bind_Raise. eapply getitem_None; eassumption.
Qed.

(** C7. When every record holds the address key, [get_all_destinations]
    returns the address values of the records, one per record and in the
    order of the records; when some record lacks the address key it
    raises [KeyError] and returns no list. *)
Theorem get_all_destinations_in_order_or_KeyError
    (st : state) (records : list loc) :
  Forall (λ l, is_Some (heap st !! l)) records →
  (Forall (λ l, is_Some (address_of self st l)) records →
     ∃ vs, get_all_destinations self records st = (Ret vs, st)
           ∧ length vs = length records
           ∧ ∀ i l, records !! i = Some l →
               address_of self st l = vs !! i)
  ∧ (Exists (λ l, address_of self st l = None) records →
     get_all_destinations self records st = (Raise KeyError, st)).
Proof.
  intros Hrefs. split; [|apply get_all_destinations_Raise, Hrefs].
  intros Hkeys.
  assert (∃ vs, Forall2 (λ l v, address_of self st l = Some v) records vs)
    as [vs Hvs].
  { clear Hrefs. induction Hkeys as [|l records [v Hv] _ [vs IH]].
    - exists []. constructor.
    - exists (v :: vs). constructor; assumption. }
  exists vs. split; [apply get_all_destinations_Ret, Hvs|].
  split; [symmetry; eapply Forall2_length, Hvs|].
  intros i l Hi.
  destruct (Forall2_lookup_l _ _ _ _ _ Hvs Hi) as (v & Hv & Ha).
  rewrite Hv. exact Ha.
Qed.
End destinations.

Lemma get_all_destinations_in_order_or_KeyError_witness :
  (∃ vs, get_all_destinations (polls_finder prepare_copy) [0; 1]%nat two_polls
         = (Ret vs, two_polls)
         ∧ length vs = 2%nat
         ∧ ∀ i l, [0; 1]%nat !! i = Some l →
             address_of (polls_finder prepare_copy) two_polls l = vs !! i)
  ∧ get_all_destinations (polls_finder prepare_copy) [0; 2]%nat
      (mkState [ {["Address" := VStr "5 Main St"]}; ∅;
                 {["Name" := VStr "Library"]} ] (Str polls_template))
    = (Raise KeyError,
       mkState [ {["Address" := VStr "5 Main St"]}; ∅;
                 {["Name" := VStr "Library"]} ] (Str polls_template)).
Proof.
  split.
  - apply (get_all_destinations_in_order_or_KeyError
             (polls_finder prepare_copy) two_polls [0; 1]%nat).
    + repeat constructor; vm_compute; eexists; reflexivity.
    + repeat constructor; vm_compute; eexists; reflexivity.
  - apply (get_all_destinations_in_order_or_KeyError
             (polls_finder prepare_copy)
             (mkState [ {["Address" := VStr "5 Main St"]}; ∅;
                        {["Name" := VStr "Library"]} ] (Str polls_template))
             [0; 2]%nat).
    + repeat constructor; vm_compute; eexists; reflexivity.
    + apply Exists_cons_tl, Exists_cons_hd. vm_compute. reflexivity.
Defined.

Example get_all_destinations_two_polls :
  get_all_destinations (polls_finder prepare_copy) [0; 1]%nat two_polls
  = (Ret [VStr "5 Main St"; VStr "20 Main St"], two_polls).
Proof. vm_compute. reflexivity. Qed.

(** ** Reconciling the closest destination with its record *)

Section reconcile.
Variable self : Finder.

(** Closes a case in which the call ended without changing the state and
    without a dictionary to return. *)
Local Ltac stays :=
  match goal with
  | Hrun : _ = (_, _) |- _ =>
      cbn in Hrun; injection Hrun as <- <-;
      left; split; [reflexivity | discriminate]
  end.

(** A record that holds an address other than the one looked for is
    passed over and nothing is changed. *)
Lemma reconcile_skip st driving_info record rest a b :
  address_of self st driving_info = Some a →
  address_of self st record = Some b →
  b ≠ a →
  get_closest_record_with_driving_info self driving_info (record :: rest) st
  = get_closest_record_with_driving_info self driving_info rest st.
Proof.
  unfold address_of. intros Ha Hb Hne.
  destruct (heap st !! driving_info) as [d|] eqn:Hd; [|discriminate].
  destruct (heap st !! record) as [r|] eqn:Hr; [|discriminate].
  cbn [get_closest_record_with_driving_info].
  rewrite (bind_Ret _ _ _ _ _ (getitem_Some _ _ _ _ _ Hd Ha)).
  rewrite (bind_Ret _ _ _ _ _ (getitem_Some _ _ _ _ _ Hr Hb)).
  destruct (decide (a = b)) as [->|_]; [contradiction|reflexivity].
Qed.

Lemma reconcile_hit st driving_info record rest d r a :
  heap st !! driving_info = Some d → d !! address_key self = Some a →
  heap st !! record = Some r → r !! address_key self = Some a →
  get_closest_record_with_driving_info self driving_info (record :: rest) st
  = (Ret (PyDict (length (heap st))),
     mkState (heap st ++ [d ∪ r]) (self_output_speech st)).
Proof.
  intros Hd Ha Hr Hb.
  cbn [get_closest_record_with_driving_info].
  rewrite (bind_Ret _ _ _ _ _ (getitem_Some _ _ _ _ _ Hd Ha)).
  rewrite (bind_Ret _ _ _ _ _ (getitem_Some _ _ _ _ _ Hr Hb)).
  destruct (decide (a = a)) as [_|]; [|contradiction].
  rewrite (bind_Ret _ _ _ _ _ (deref_Some _ _ _ Hr)).
  rewrite (bind_Ret _ _ _ _ _ (deref_Some _ _ _ Hd)).
  reflexivity.
Qed.

(** C2, as the code has it. When some record holds the address of the
    driving info, and every record before the first such record holds an
    address too (another one),
    [get_closest_record_with_driving_info] returns a new dictionary made
    of that first record and the driving info: every field of the driving
    info is in it with the driving info's value, also where the record
    has a field of the same name, and every other field of the record is
    in it as the record has it. *)
Theorem get_closest_record_with_driving_info_first_match
    (st : state) (driving_info : loc) (records : list loc)
    (i : nat) (record : loc) (d r : Dict) (a : Val) :
  heap st !! driving_info = Some d → d !! address_key self = Some a →
  records !! i = Some record →
  heap st !! record = Some r → r !! address_key self = Some a →
  (∀ j l, (j < i)%nat → records !! j = Some l →
     ∃ b, address_of self st l = Some b ∧ b ≠ a) →
  ∃ merged,
    get_closest_record_with_driving_info self driving_info records st
    = (Ret (PyDict (length (heap st))),
       mkState (heap st ++ [merged]) (self_output_speech st))
    ∧ (∀ k v, d !! k = Some v → merged !! k = Some v)
    ∧ (∀ k, d !! k = None → merged !! k = r !! k).
Proof.
  intros Hd Ha Hi Hr Hb Hbefore. exists (d ∪ r).
  split; [|split].
  - revert i Hi Hbefore.
    induction records as [|first rest IH]; intros i Hi Hbefore.
    + rewrite lookup_nil in Hi. discriminate.
    + destruct i as [|i]; cbn in Hi.
      * injection Hi as ->. eapply reconcile_hit; eassumption.
      * destruct (Hbefore 0%nat first) as (b & Hfirst & Hne);
          [lia|reflexivity|].
        rewrite (reconcile_skip st driving_info first rest a b);
          [|unfold address_of; rewrite Hd; exact Ha|exact Hfirst|exact Hne].
        apply (IH i Hi). intros j l Hj Hl.
        apply (Hbefore (Datatypes.S j) l); [lia|exact Hl].
  - intros k v Hk. apply lookup_union_Some_l. exact Hk.
  - intros k Hk. apply lookup_union_r. exact Hk.
Qed.

(** C5, as the code has it. When every record holds an address and none
    of them is the address of the driving info,
    [get_closest_record_with_driving_info] returns [None]: no exception
    is raised and neither the store nor the output speech is touched. *)
Theorem get_closest_record_with_driving_info_no_match
    (st : state) (driving_info : loc) (records : list loc) (a : Val) :
  address_of self st driving_info = Some a →
  Forall (λ l, ∃ b, address_of self st l = Some b ∧ b ≠ a) records →
  get_closest_record_with_driving_info self driving_info records st
  = (Ret PyNone, st).
Proof.
  intros Ha Hall. induction Hall as [|l rest (b & Hb & Hne) _ IH].
  - reflexivity.
  - rewrite (reconcile_skip st driving_info l rest a b Ha Hb Hne).
    exact IH.
Qed.

(** The call ends in the state it started in, or in that state with one
    dictionary added at a new location, which is then the result. *)
Lemma reconcile_state st driving_info records : ∀ res st',
  get_closest_record_with_driving_info self driving_info records st
  = (res, st') →
  (st' = st ∧ ∀ l, res ≠ Ret (PyDict l))
  ∨ (∃ merged,
       res = Ret (PyDict (length (heap st)))
       ∧ st' = mkState (heap st ++ [merged]) (self_output_speech st)).
Proof.
  induction records as [|record rest IH]; intros res st' Hrun.
  - injection Hrun as <- <-. left. split; [reflexivity|]. discriminate.
  - cbn [get_closest_record_with_driving_info] in Hrun.
    cbv beta delta [bind getitem deref ret raise alloc] in Hrun.
    destruct (heap st !! driving_info) as [d|] eqn:Hd; [|stays].
    destruct (d !! address_key self) as [a|]; [|stays].
    destruct (heap st !! record) as [r|] eqn:Hr; [|stays].
    destruct (r !! address_key self) as [b|]; [|stays].
    cbn in Hrun.
    destruct (decide (a = b)) as [_|_]; [|exact (IH _ _ Hrun)].
    rewrite Hr in Hrun. cbn in Hrun. rewrite Hd in Hrun.
    injection Hrun as <- <-. right. exists (d ∪ r). done.
Qed.

(** C10. Whatever the records and the driving info are,
    [get_closest_record_with_driving_info] leaves every dictionary of the
    store as it was (so every input record and the driving info keep
    exactly their fields) and leaves the output speech alone; a
    dictionary it returns sits at a location that held nothing before
    the call. *)
Theorem get_closest_record_with_driving_info_fresh
    (st : state) (driving_info : loc) (records : list loc) :
  let run :=
    get_closest_record_with_driving_info self driving_info records st in
  (∀ l d, heap st !! l = Some d → heap run.2 !! l = Some d)
  ∧ self_output_speech run.2 = self_output_speech st
  ∧ (∀ l, run.1 = Ret (PyDict l) →
       heap st !! l = None ∧ is_Some (heap run.2 !! l)).
Proof.
  cbn zeta.
  destruct (get_closest_record_with_driving_info self driving_info records st)
    as [res st'] eqn:Hrun.
  cbn [fst snd].
  destruct (reconcile_state st driving_info records res st' Hrun)
    as [[-> Hres]|(merged & -> & ->)].
  - split; [auto|]. split; [reflexivity|].
    intros l Hl. destruct (Hres l Hl).
  - cbn [heap self_output_speech].
    split; [|split; [reflexivity|]].
    + intros l d Hl. apply lookup_app_l_Some. exact Hl.
    + intros l Hl. injection Hl as <-. split.
      * apply lookup_ge_None. lia.
      * exists merged. apply list_lookup_middle. reflexivity.
Qed.
End reconcile.

Lemma get_closest_record_with_driving_info_first_match_witness :
  ∃ merged,
    get_closest_record_with_driving_info (polls_finder prepare_copy) 3%nat
      [0; 1]%nat two_polls_measured
    = (Ret (PyDict 5),
       mkState (heap two_polls_measured ++ [merged])
         (self_output_speech two_polls_measured))
    ∧ (∀ k v,
         (<["Address" := VStr "20 Main St"]>
            {["Driving distance" := VNum 644]} : Dict) !! k = Some v →
         merged !! k = Some v)
    ∧ (∀ k,
         (<["Address" := VStr "20 Main St"]>
            {["Driving distance" := VNum 644]} : Dict) !! k = None →
         merged !! k
         = (<["Address" := VStr "20 Main St"]>
              {["Name" := VStr "Library"]} : Dict) !! k).
Proof.
  apply (get_closest_record_with_driving_info_first_match
           (polls_finder prepare_copy) two_polls_measured 3%nat [0; 1]%nat
           1%nat 1%nat
           (<["Address" := VStr "20 Main St"]>
              {["Driving distance" := VNum 644]})
           (<["Address" := VStr "20 Main St"]> {["Name" := VStr "Library"]})
           (VStr "20 Main St")).
  - vm_compute. reflexivity.
  - vm_compute. reflexivity.
  - reflexivity.
  - vm_compute. reflexivity.
  - vm_compute. reflexivity.
  - intros [|j] l Hj Hl; [|lia]. injection Hl as <-.
    exists (VStr "5 Main St"). split; [vm_compute; reflexivity|discriminate].
Defined.

(** C2, as the claim has it, fails: the second record holds the address of
    the driving info, but the first record holds no address at all, and
    comparing it raises [KeyError] before the matching record is reached;
    nothing is merged and nothing is returned. *)
Lemma get_closest_record_with_driving_info_match_not_reached :
  address_of (polls_finder prepare_copy) nameless_poll_first 2%nat
  = Some (VStr "20 Main St")
  ∧ [0; 1]%nat !! 1%nat = Some 1%nat
  ∧ address_of (polls_finder prepare_copy) nameless_poll_first 1%nat
    = Some (VStr "20 Main St")
  ∧ get_closest_record_with_driving_info (polls_finder prepare_copy) 2%nat
      [0; 1]%nat nameless_poll_first
    = (Raise KeyError, nameless_poll_first)
  ∧ ¬ ∃ l st',
        get_closest_record_with_driving_info (polls_finder prepare_copy)
          2%nat [0; 1]%nat nameless_poll_first
        = (Ret (PyDict l), st').
Proof.
  split; [vm_compute; reflexivity|]. split; [reflexivity|].
  split; [vm_compute; reflexivity|].
  assert (Hrun :
    get_closest_record_with_driving_info (polls_finder prepare_copy) 2%nat
      [0; 1]%nat nameless_poll_first = (Raise KeyError, nameless_poll_first))
    by (vm_compute; reflexivity).
  split; [exact Hrun|].
  intros (l & st' & Hret). rewrite Hrun in Hret. discriminate.
Qed.

(** A field the record and the driving info share ends up with the driving
    info's value. *)
Example get_closest_record_with_driving_info_collision :
  let st :=
    mkState
      [ <["Address" := VStr "20 Main St"]> {["Hours" := VStr "7 to 8"]};
        <["Address" := VStr "20 Main St"]> {["Hours" := VStr "2 mins"]} ]
      (Str polls_template) in
  get_closest_record_with_driving_info (polls_finder prepare_copy) 1%nat
    [0]%nat st
  = (Ret (PyDict 2),
     mkState
       (heap st ++
        [ <["Address" := VStr "20 Main St"]> {["Hours" := VStr "2 mins"]} ])
       (Str polls_template)).
Proof. vm_compute. reflexivity. Qed.

(** A record without the address key stops the scan with [KeyError], also
    when a later record would have matched. *)
Example get_closest_record_with_driving_info_malformed_record :
  let st :=
    mkState
      [ {["Name" := VStr "Fire House"]};
        <["Address" := VStr "20 Main St"]> {["Name" := VStr "Library"]};
        <["Address" := VStr "20 Main St"]> {["Driving distance" := VNum 644]} ]
      (Str polls_template) in
  get_closest_record_with_driving_info (polls_finder prepare_copy) 2%nat
    [0; 1]%nat st
  = (Raise KeyError, st).
Proof. vm_compute. reflexivity. Qed.

Lemma get_closest_record_with_driving_info_no_match_witness :
  get_closest_record_with_driving_info (polls_finder prepare_copy) 4%nat
    [0; 1]%nat two_polls_measured
  = (Ret PyNone, two_polls_measured).
Proof.
  apply (get_closest_record_with_driving_info_no_match
           (polls_finder prepare_copy) two_polls_measured 4%nat [0; 1]%nat
           (VStr "1 City Hall Sq")).
  - vm_compute. reflexivity.
  - repeat constructor.
    + exists (VStr "5 Main St"). split; [vm_compute; reflexivity|discriminate].
    + exists (VStr "20 Main St"). split; [vm_compute; reflexivity|discriminate].
Defined.

(** C5, as the claim has it, fails: the driving info for 1 City Hall Sq
    matches neither polling place, and the call returns [None] instead of
    raising. *)
Lemma get_closest_record_with_driving_info_no_match_silent :
  address_of (polls_finder prepare_copy) two_polls_measured 4%nat
  = Some (VStr "1 City Hall Sq")
  ∧ Forall (λ l, ∃ b, address_of (polls_finder prepare_copy)
                        two_polls_measured l = Some b
                      ∧ b ≠ VStr "1 City Hall Sq") [0; 1]%nat
  ∧ get_closest_record_with_driving_info (polls_finder prepare_copy) 4%nat
      [0; 1]%nat two_polls_measured
    = (Ret PyNone, two_polls_measured)
  ∧ ¬ ∃ e st',
        get_closest_record_with_driving_info (polls_finder prepare_copy)
          4%nat [0; 1]%nat two_polls_measured
        = (Raise e, st').
Proof.
  split; [vm_compute; reflexivity|]. split.
  { repeat constructor.
    - exists (VStr "5 Main St"). split; [vm_compute; reflexivity|discriminate].
    - exists (VStr "20 Main St"). split; [vm_compute; reflexivity|discriminate]. }
  assert (Hrun :
    get_closest_record_with_driving_info (polls_finder prepare_copy) 4%nat
      [0; 1]%nat two_polls_measured = (Ret PyNone, two_polls_measured))
    by (vm_compute; reflexivity).
  split; [exact Hrun|].
  intros (e & st' & Hraise). rewrite Hrun in Hraise. discriminate.
Qed.

Lemma get_closest_record_with_driving_info_fresh_witness :
  (∀ l d, heap two_polls_measured !! l = Some d →
     heap (get_closest_record_with_driving_info (polls_finder prepare_copy)
             3%nat [0; 1]%nat two_polls_measured).2 !! l = Some d)
  ∧ heap (get_closest_record_with_driving_info (polls_finder prepare_copy)
            3%nat [0; 1]%nat two_polls_measured).2 !! 5%nat
    = Some (<["Driving distance" := VNum 644]>
            (<["Address" := VStr "20 Main St"]> {["Name" := VStr "Library"]})).
Proof.
  split.
  - apply (get_closest_record_with_driving_info_fresh
             (polls_finder prepare_copy) two_polls_measured 3%nat [0; 1]%nat).
  - vm_compute. reflexivity.
Defined.

(** ** Rendering the output speech *)

(** The apology is an attribute of the class and not a name of the module. *)
Lemma ERROR_MESSAGE_is_a_class_attribute :
  Finder_class
  = PyClass "Finder"
      [("CITY", "Boston"); ("STATE", "MA");
       ("ERROR_MESSAGE", "Uh oh. Something went wrong!")]
  ∧ module_globals !! "Finder" = Some Finder_class
  ∧ module_globals !! "ERROR_MESSAGE" = None.
Proof. vm_compute. done. Qed.

Lemma load_global_ERROR_MESSAGE {S} (st : S) :
  load_global "ERROR_MESSAGE" st = (Raise NameError, st).
Proof. reflexivity. Qed.

Section render.
Variable self : Finder.

Lemma set_output_speech_formatted st template l d formatted :
  self_output_speech st = Str template →
  heap st !! l = Some d →
  py_format template [] d = Ret formatted →
  set_output_speech self (PyDict l) st
  = (Ret tt, mkState (heap st) (Str formatted)).
Proof.
  intros Hs Hl Hf. unfold set_output_speech.
  erewrite try_except_Ret; [reflexivity|].
  cbv beta delta [bind get_self_output_speech format_method
                  unpack_keywords deref lift ret set_self_output_speech].
  rewrite Hs. cbn. rewrite Hl. cbn. rewrite Hf. reflexivity.
Qed.

(** C3, as the code has it. When the template names a field the record
    lacks, so that formatting raises [KeyError], the handler of
    [set_output_speech] looks up the bare name [ERROR_MESSAGE], which the
    module does not bind: [NameError] reaches the caller, the stored
    output speech is still the unformatted template, and that template is
    what [get_output_speech] returns afterwards. *)
Theorem set_output_speech_missing_field_NameError
    (st : state) (template : string) (l : loc) (d : Dict) :
  self_output_speech st = Str template →
  heap st !! l = Some d →
  py_format template [] d = Raise KeyError →
  set_output_speech self (PyDict l) st = (Raise NameError, st)
  ∧ get_output_speech self st = (Ret (Str template), st).
Proof.
  intros Hs Hl Hf. split.
  - unfold set_output_speech.
    erewrite try_except_caught with (st' := st).
    + reflexivity.
    + cbv beta delta [bind get_self_output_speech format_method
                      unpack_keywords deref lift ret].
      rewrite Hs. cbn. rewrite Hl. cbn. rewrite Hf. reflexivity.
  - unfold get_output_speech, get_self_output_speech. rewrite Hs.
    reflexivity.
Qed.
End render.

Lemma set_output_speech_missing_field_NameError_witness :
  set_output_speech (polls_finder prepare_copy) (PyDict 0) two_polls
  = (Raise NameError, two_polls)
  ∧ get_output_speech (polls_finder prepare_copy) two_polls
    = (Ret (Str polls_template), two_polls).
Proof.
  apply (set_output_speech_missing_field_NameError
           (polls_finder prepare_copy) two_polls polls_template 0%nat
           (<["Address" := VStr "5 Main St"]> {["Name" := VStr "Fire House"]})).
  - reflexivity.
  - reflexivity.
  - vm_compute. reflexivity.
Defined.

(** The template is not the apology. *)
Example polls_template_is_not_the_apology :
  Str polls_template ≠ Str ERROR_MESSAGE.
Proof. discriminate. Qed.

(** ** The pipeline *)

(** C6, as the claim has it, fails at a preparation function that returns
    a prepared copy. The record merged for 20 Main St is handed to the
    preparation function, whose result, at location 5, names the place
    "the Library"; the speech is nevertheless formatted from the merged
    record at location 4, which that function left alone, and says
    "Library": it is not the template formatted with the result of the
    preparation. *)
Theorem _start_formats_the_unprepared_record :
  ∃ st',
    _start (H := boston) (polls_finder prepare_copy) [0; 1]%nat two_polls
    = (Ret tt, st')
    ∧ self_output_speech st'
      = Str "Vote at Library, 20 Main St, 0.4 mi away."
    ∧ (∃ merged prepared,
         heap st' !! 4%nat = Some merged
         ∧ heap st' !! 5%nat = Some prepared
         ∧ prepared = prepare merged
         ∧ py_format polls_template [] merged
           = Ret "Vote at Library, 20 Main St, 0.4 mi away."
         ∧ py_format polls_template [] prepared
           = Ret "Vote at the Library, 20 Main St, 0.4 mi away."
         ∧ self_output_speech st'
           ≠ Str "Vote at the Library, 20 Main St, 0.4 mi away.").
Proof.
  eexists. split; [vm_compute; reflexivity|].
  split; [reflexivity|].
  eexists _, _. split; [reflexivity|]. split; [reflexivity|].
  split; [vm_compute; reflexivity|].
  split; [vm_compute; reflexivity|].
  split; [vm_compute; reflexivity|]. discriminate.
Qed.

(** A preparation function that rewrites the record it is given is heard. *)
Example _start_in_place_preparation :
  ∃ st',
    _start (H := boston) (polls_finder prepare_in_place) [0; 1]%nat two_polls
    = (Ret tt, st')
    ∧ self_output_speech st'
      = Str "Vote at the Library, 20 Main St, 0.4 mi away.".
Proof. eexists. split; [vm_compute; reflexivity|reflexivity]. Qed.

Section pipeline.
Context `{FinderServices}.
Variable self : Finder.

Lemma get_closest_destination_empty st :
  get_closest_destination self [] st = (Raise ValueError, st).
Proof. reflexivity. Qed.

(** C4, as the code has it. [min] of no driving infos raises
    [ValueError]; and when the records are empty, and the augmentation
    and the distance service answer an empty sequence with an empty
    sequence, that [ValueError] leaves [_start] unhandled, in the state
    the two collaborators left. *)
Theorem _start_no_records_ValueError (st st1 st2 : state) :
  csv_utils_add_city_and_state_to_records [] (address_key self) CITY STATE st
  = (Ret [], st1) →
  g_maps_utils_get_driving_info (origin_address self) (address_key self)
    [] st1 = (Ret [], st2) →
  get_closest_destination self [] st2 = (Raise ValueError, st2)
  ∧ _start self [] st = (Raise ValueError, st2).
Proof.
  intros Haugment Hdriving. split; [reflexivity|].
  unfold _start.
  rewrite (bind_Ret _ _ _ _ _ Haugment).
  cbn [get_all_destinations]. unfold bind at 1, ret at 1.
  unfold get_driving_times_to_destinations.
  rewrite (bind_Ret _ _ _ _ _ Hdriving).
  reflexivity.
Qed.
End pipeline.

Lemma _start_no_records_ValueError_witness :
  get_closest_destination (H := boston) (polls_finder prepare_copy) [] no_polls
  = (Raise ValueError, no_polls)
  ∧ _start (H := boston) (polls_finder prepare_copy) [] no_polls
    = (Raise ValueError, no_polls).
Proof.
  apply (_start_no_records_ValueError (H := boston)
           (polls_finder prepare_copy) no_polls no_polls no_polls).
  - reflexivity.
  - reflexivity.
Defined.

(** C4, as the claim has it, fails: with no records at all the pipeline
    ends in an uncaught [ValueError], and the output speech is the
    unformatted template, not a report that nothing was found. *)
Lemma _start_no_records_unhandled :
  _start (H := boston) (polls_finder prepare_copy) [] no_polls
  = (Raise ValueError, no_polls)
  ∧ self_output_speech no_polls = Str polls_template
  ∧ ¬ ∃ st', _start (H := boston) (polls_finder prepare_copy) [] no_polls
             = (Ret tt, st').
Proof.
  assert (Hrun : _start (H := boston) (polls_finder prepare_copy) [] no_polls
                 = (Raise ValueError, no_polls)) by (vm_compute; reflexivity).
  split; [exact Hrun|]. split; [reflexivity|].
  intros [st' Hret]. rewrite Hrun in Hret. discriminate.
Qed.

(** ** The polling-location intent *)

Section polling_location.
Import voting_intent.
Context `{VotingServices}.

(** Assigning [None] and then the title leaves the title. *)
Lemma reprompt_text_overwritten r title :
  setattr_reprompt_text (setattr_reprompt_text r None) (Some title)
  = setattr_reprompt_text r (Some title).
Proof. reflexivity. Qed.

(** C8. When the session holds a string under the current-address key,
    the one geocoding request the function sends carries that string
    followed by ", Boston, MA", and it is the first call after the debug
    log line; when the session lacks the key, the function raises
    [KeyError] before any service is called. *)
Theorem get_polling_location_origin_address
    (req : MyCityRequestDataModel) (log : list call) :
  (∀ v, session_attributes req !! CURRENT_ADDRESS_KEY = Some (VStr v) →
     ∃ rest,
       (get_polling_location req log).2
       = (log ++ received req
              :: GeocodeAddressCandidates (v +:+ ", Boston, MA") :: rest)%list
       ∧ Forall (λ c, is_geocode_call c = false) rest)
  ∧ (session_attributes req !! CURRENT_ADDRESS_KEY = None →
     get_polling_location req log
     = (Raise KeyError, (log ++ [received req])%list)).
Proof.
  split.
  - intros v Hv.
    cbv beta delta [get_polling_location bind outside subscript iadd_str
                    ret raise lift].
    cbn beta iota zeta delta [fst snd]. rewrite Hv. cbn beta iota zeta delta [fst snd].
    destruct (geocode_address_candidates _) as [cs|e]; cbn beta iota zeta delta [fst snd];
      [|exists []; rewrite <- app_assoc; split; [reflexivity|constructor]].
    destruct (select_top_address_candidate cs) as [c|e]; cbn beta iota zeta delta [fst snd];
      [|eexists; rewrite <- !app_assoc; split;
        [reflexivity|repeat constructor; auto]].
    destruct (get_ward_precinct_info c) as [w|e]; cbn beta iota zeta delta [fst snd];
      [|eexists; rewrite <- !app_assoc; split;
        [reflexivity|repeat constructor; auto]].
    assert (Hlog :
      (((((log ++ [received req])
          ++ [GeocodeAddressCandidates (v +:+ ", Boston, MA")])
         ++ [SelectTopAddressCandidate cs])
        ++ [GetWardPrecinctInfo c]) ++ [GetPollingLocation w]
       = log ++ received req
             :: GeocodeAddressCandidates (v +:+ ", Boston, MA")
             :: [SelectTopAddressCandidate cs; GetWardPrecinctInfo c;
                 GetPollingLocation w])%list).
    { rewrite <- !app_assoc. reflexivity. }
    assert (Hrest :
      Forall (λ c, is_geocode_call c = false)
        [SelectTopAddressCandidate cs; GetWardPrecinctInfo c;
         GetPollingLocation w]).
    { repeat constructor; auto. }
    fold (received req). rewrite Hlog.
    destruct (vote_utils_get_polling_location w) as [p|e]; cbn beta iota zeta delta [fst snd];
      [|eexists; split; [reflexivity|exact Hrest]].
    destruct (p !! "Location Name") as [name|]; cbn beta iota zeta delta [fst snd];
      [|eexists; split; [reflexivity|exact Hrest]].
    destruct (p !! "Location Address") as [address|]; cbn beta iota zeta delta [fst snd];
      [|eexists; split; [reflexivity|exact Hrest]].
    destruct (py_format LOCATION_SPEECH [name; address] ∅); cbn beta iota zeta delta [fst snd];
      eexists; (split; [reflexivity|exact Hrest]).
  - intros Hnone.
    cbv beta delta [get_polling_location bind outside subscript ret raise].
    cbn beta iota zeta delta [fst snd]. rewrite Hnone. reflexivity.
Qed.

(** C9. Every response [get_polling_location] returns has the card title
    "Voting Intent" as its reprompt text, the card title the response was
    constructed with, and the end-of-session flag set; and a response is
    returned whenever the session holds the address, the four services
    answer and the speech can be formatted from the name and address of
    the polling location. *)
Theorem get_polling_location_response
    (req : MyCityRequestDataModel) (log : list call) :
  (∀ r log', get_polling_location req log = (Ret r, log') →
     reprompt_text r = Some "Voting Intent"
     ∧ card_title r = card_title new_response
     ∧ should_end_session r = Some true)
  ∧ (∀ v cs c w p name address text,
       session_attributes req !! CURRENT_ADDRESS_KEY = Some (VStr v) →
       geocode_address_candidates (v +:+ ", Boston, MA") = Ret cs →
       select_top_address_candidate cs = Ret c →
       get_ward_precinct_info c = Ret w →
       vote_utils_get_polling_location w = Ret p →
       p !! "Location Name" = Some name →
       p !! "Location Address" = Some address →
       py_format LOCATION_SPEECH [name; address] ∅ = Ret text →
       ∃ r log', get_polling_location req log = (Ret r, log')
                 ∧ output_speech r = Some text).
Proof.
  split.
  - intros r log'.
    cbv beta delta [get_polling_location bind outside subscript iadd_str
                    ret raise lift].
    cbn beta iota zeta delta [fst snd].
    destruct (session_attributes req !! CURRENT_ADDRESS_KEY) as [[n|v]|];
      cbn beta iota zeta delta [fst snd]; try discriminate.
    destruct (geocode_address_candidates _) as [cs|e]; cbn beta iota zeta delta [fst snd];
      [|discriminate].
    destruct (select_top_address_candidate cs) as [c|e]; cbn beta iota zeta delta [fst snd];
      [|discriminate].
    destruct (get_ward_precinct_info c) as [w|e]; cbn beta iota zeta delta [fst snd];
      [|discriminate].
    destruct (vote_utils_get_polling_location w) as [p|e]; cbn beta iota zeta delta [fst snd];
      [|discriminate].
    destruct (p !! "Location Name") as [name|]; cbn beta iota zeta delta [fst snd];
      [|discriminate].
    destruct (p !! "Location Address") as [address|]; cbn beta iota zeta delta [fst snd];
      [|discriminate].
    destruct (py_format LOCATION_SPEECH [name; address] ∅); cbn beta iota zeta delta [fst snd];
      [|discriminate].
    intros Hr. injection Hr as <- _. done.
  - intros v cs c w p name address text Hv Hcs Hc Hw Hp Hname Haddress Htext.
    cbv beta delta [get_polling_location bind outside subscript iadd_str
                    ret raise lift].
    cbn beta iota zeta delta [fst snd]. rewrite Hv. cbn beta iota zeta delta [fst snd]. rewrite Hcs. cbn beta iota zeta delta [fst snd].
    rewrite Hc. cbn beta iota zeta delta [fst snd]. rewrite Hw. cbn beta iota zeta delta [fst snd].
    rewrite Hp. cbn beta iota zeta delta [fst snd]. rewrite Hname. cbn beta iota zeta delta [fst snd].
    rewrite Haddress. cbn beta iota zeta delta [fst snd]. rewrite Htext. cbn beta iota zeta delta [fst snd].
    eexists _, _. split; reflexivity.
Qed.
End polling_location.

Lemma get_polling_location_origin_address_witness :
  (∃ rest,
     (voting_intent.get_polling_location (H := boston_votes)
        request_with_address []).2
     = ([] ++ voting_intent.received (H := boston_votes) request_with_address
           :: voting_intent.GeocodeAddressCandidates
                ("10 Main St" +:+ ", Boston, MA") :: rest)%list
     ∧ Forall (λ c, voting_intent.is_geocode_call (H := boston_votes) c = false)
         rest)
  ∧ voting_intent.get_polling_location (H := boston_votes)
      request_without_address []
    = (Raise KeyError,
       ([] ++ [voting_intent.received (H := boston_votes)
                 request_without_address])%list).
Proof.
  split.
  - apply (get_polling_location_origin_address (H := boston_votes)
             request_with_address []).
    vm_compute. reflexivity.
  - apply (get_polling_location_origin_address (H := boston_votes)
             request_without_address []).
    vm_compute. reflexivity.
Defined.

Lemma get_polling_location_response_witness :
  (∀ r log',
     voting_intent.get_polling_location (H := boston_votes)
       request_with_address [] = (Ret r, log') →
     voting_intent.reprompt_text r = Some "Voting Intent"
     ∧ voting_intent.card_title r = None
     ∧ voting_intent.should_end_session r = Some true)
  ∧ ∃ r log',
      voting_intent.get_polling_location (H := boston_votes)
        request_with_address [] = (Ret r, log')
      ∧ voting_intent.output_speech r
        = Some "Your polling location is City Hall, at 1 City Hall Sq.".
Proof.
  split.
  - apply (get_polling_location_response (H := boston_votes)
             request_with_address []).
  - apply (proj2 (get_polling_location_response (H := boston_votes)
                    request_with_address [])
             "10 Main St"
             (["10 Main St, Boston, MA"]
                : @voting_intent.candidates boston_votes)
             ("10 Main St, Boston, MA"
                : @voting_intent.candidate boston_votes)
             ("0305"
                : @voting_intent.ward_precinct boston_votes)
             (<["Location Name" := VStr "City Hall"]>
                {["Location Address" := VStr "1 City Hall Sq"]})
             (VStr "City Hall") (VStr "1 City Hall Sq")).
    + vm_compute. reflexivity.
    + vm_compute. reflexivity.
    + reflexivity.
    + reflexivity.
    + reflexivity.
    + vm_compute. reflexivity.
    + vm_compute. reflexivity.
    + vm_compute. reflexivity.
Defined.

Example get_polling_location_runs :
  voting_intent.get_polling_location (H := boston_votes) request_with_address []
  = (Ret (voting_intent.mkResponse
            (Some "Your polling location is City Hall, at 1 City Hall Sq.")
            (Some "Voting Intent") None (Some true)),
     [voting_intent.LoggerDebug "MyCityRequestDataModel received:<request>";
      voting_intent.GeocodeAddressCandidates "10 Main St, Boston, MA";
      voting_intent.SelectTopAddressCandidate
        (["10 Main St, Boston, MA"] : @voting_intent.candidates boston_votes);
      voting_intent.GetWardPrecinctInfo
        ("10 Main St, Boston, MA" : @voting_intent.candidate boston_votes);
      voting_intent.GetPollingLocation
        ("0305" : @voting_intent.ward_precinct boston_votes)]).
Proof. vm_compute. reflexivity. Qed.

(** * Further properties of Finder.py *)

(** ** What reading never changes *)

Lemma getitem_outcome st l k : ∃ o, getitem l k st = (o, st).
Proof.
  unfold getitem, bind, deref.
  destruct (heap st !! l) as [d|]; [|eexists; reflexivity].
  destruct (d !! k); eexists; reflexivity.
Qed.

Lemma bind_ext {S A B} (m : ST S A) (k k' : A → ST S B) st :
  (∀ a st', k a st' = k' a st') → bind m k st = bind m k' st.
Proof.
  intros Hk. unfold bind. destruct (m st) as [[a|e] st']; [apply Hk|reflexivity].
Qed.

(** [get_all_destinations] reads the records and changes nothing, whether
    it returns the destinations or raises: the store and the output speech
    after the call are those before it. *)
Theorem get_all_destinations_read_only
    (self : Finder) (records : list loc) (st : state) :
  (get_all_destinations self records st).2 = st.
Proof.
  induction records as [|record rest IH]; [reflexivity|].
  cbn [get_all_destinations]. unfold bind at 1.
  destruct (getitem_outcome st record (address_key self)) as [[v|e] ->];
    [|reflexivity].
  unfold bind at 1.
  destruct (get_all_destinations self rest st) as [[vs|e] st'] eqn:Hrest;
    cbn [snd] in IH; subst st'; reflexivity.
Qed.

Section selection.
Context `{FinderServices}.

Lemma min_loop_keeps_an_item st rest : ∀ minitem minval res st',
  min_loop (λ d, getitem d DRIVING_DISTANCE_VALUE_KEY) minitem minval rest st
  = (res, st') →
  st' = st ∧ ∀ l, res = Ret l → l = minitem ∨ l ∈ rest.
Proof.
  induction rest as [|item rest IH]; intros minitem minval res st' Hrun.
  - injection Hrun as <- <-. split; [reflexivity|].
    intros l Hl. injection Hl as <-. left. reflexivity.
  - cbn [min_loop] in Hrun. unfold bind at 1 in Hrun.
    destruct (getitem_outcome st item DRIVING_DISTANCE_VALUE_KEY)
      as [[v|e] Hget]; rewrite Hget in Hrun;
      [|injection Hrun as <- <-; split; [reflexivity|discriminate]].
    unfold bind at 1, lift at 1 in Hrun.
    destruct (py_lt v minval) as [[|]|e];
      [| |injection Hrun as <- <-; split; [reflexivity|discriminate]].
    + destruct (IH _ _ _ _ Hrun) as [-> Hin]. split; [reflexivity|].
      intros l Hl. right. destruct (Hin l Hl) as [->|Hl'].
      * apply list_elem_of_here.
      * apply list_elem_of_further, Hl'.
    + destruct (IH _ _ _ _ Hrun) as [-> Hin]. split; [reflexivity|].
      intros l Hl. destruct (Hin l Hl) as [->|Hl'].
      * left. reflexivity.
      * right. apply list_elem_of_further, Hl'.
Qed.

(** Whatever the driving infos hold, [get_closest_destination] changes
    nothing, and what it returns is one of the dictionaries it was given:
    it builds no new one. *)
Theorem get_closest_destination_returns_an_input
    (self : Finder) (destination_dictionaries : list loc) (st : state) :
  (get_closest_destination self destination_dictionaries st).2 = st
  ∧ ∀ l, (get_closest_destination self destination_dictionaries st).1 = Ret l →
      l ∈ destination_dictionaries.
Proof.
  destruct (get_closest_destination self destination_dictionaries st)
    as [res st'] eqn:Hrun.
  cbn [fst snd]. unfold get_closest_destination, py_min in Hrun.
  destruct destination_dictionaries as [|first rest].
  - injection Hrun as <- <-. split; [reflexivity|discriminate].
  - unfold bind at 1 in Hrun.
    destruct (getitem_outcome st first DRIVING_DISTANCE_VALUE_KEY)
      as [[v|e] Hget]; rewrite Hget in Hrun;
      [|injection Hrun as <- <-; split; [reflexivity|discriminate]].
    destruct (min_loop_keeps_an_item _ _ _ _ _ _ Hrun) as [-> Hin].
    split; [reflexivity|]. intros l Hl.
    destruct (Hin l Hl) as [->|Hl'].
    + apply list_elem_of_here.
    + apply list_elem_of_further, Hl'.
Qed.

Lemma min_loop_missing_distance st rest : ∀ minitem m,
  Forall (λ l, is_Some (distance_value st l) ∨ lacks_distance st l) rest →
  Exists (lacks_distance st) rest →
  min_loop (λ d, getitem d DRIVING_DISTANCE_VALUE_KEY) minitem (VNum m) rest st
  = (Raise KeyError, st).
Proof.
  induction rest as [|item rest IH]; intros minitem m Hall Hex.
  - inversion Hex.
  - apply Forall_cons in Hall as [Hitem Hall]. cbn [min_loop].
    destruct Hitem as [[n Hn]|(d & Hd & Hk)].
    + rewrite (bind_Ret _ _ _ _ _ (distance_value_getitem _ _ _ Hn)).
      unfold bind at 1, lift at 1. cbn [py_lt].
      assert (Hrest : Exists (lacks_distance st) rest).
      { apply Exists_cons in Hex as [(d & Hd & Hk)|Hrest]; [|exact Hrest].
        unfold distance_value in Hn. rewrite Hd, Hk in Hn. discriminate. }
      destruct (n <? m)%Z; apply IH; assumption.
    + apply bind_Raise. eapply getitem_None; eassumption.
Qed.

(** When every driving info either holds a numeric distance or holds none,
    and at least one holds none, [get_closest_destination] raises
    [KeyError] and changes nothing: the key is taken of every item, the
    first one included, so one incomplete answer of the distance service
    fails the whole selection. *)
Theorem get_closest_destination_missing_distance
    (self : Finder) (destination_dictionaries : list loc) (st : state) :
  Forall (λ l, is_Some (distance_value st l) ∨ lacks_distance st l)
    destination_dictionaries →
  Exists (lacks_distance st) destination_dictionaries →
  get_closest_destination self destination_dictionaries st
  = (Raise KeyError, st).
Proof.
  intros Hall Hex. unfold get_closest_destination, py_min.
  destruct destination_dictionaries as [|first rest]; [inversion Hex|].
  apply Forall_cons in Hall as [Hfirst Hall].
  destruct Hfirst as [[n Hn]|(d & Hd & Hk)].
  - rewrite (bind_Ret _ _ _ _ _ (distance_value_getitem _ _ _ Hn)).
    apply min_loop_missing_distance; [exact Hall|].
    apply Exists_cons in Hex as [(d & Hd & Hk)|Hrest]; [|exact Hrest].
    unfold distance_value in Hn. rewrite Hd, Hk in Hn. discriminate.
  - apply bind_Raise. eapply getitem_None; eassumption.
Qed.
End selection.

Lemma get_closest_destination_missing_distance_witness :
  get_closest_destination (H := boston) (polls_finder prepare_copy)
    [2; 0; 3]%nat two_polls_measured
  = (Raise KeyError, two_polls_measured).
Proof.
  apply (get_closest_destination_missing_distance (H := boston)
           (polls_finder prepare_copy) [2; 0; 3]%nat two_polls_measured).
  - apply Forall_cons_2; [|apply Forall_cons_2; [|apply Forall_cons_2]].
    + left. vm_compute. eexists. reflexivity.
    + right. eexists. split; vm_compute; reflexivity.
    + left. vm_compute. eexists. reflexivity.
    + apply Forall_nil_2.
  - apply Exists_cons_tl, Exists_cons_hd.
    eexists. split; vm_compute; reflexivity.
Defined.

(** ** Reconciliation at its edges *)

Section reconcile_edges.
Variable self : Finder.

Lemma address_of_Some st l v :
  address_of self st l = Some v →
  ∃ d, heap st !! l = Some d ∧ d !! address_key self = Some v.
Proof.
  unfold address_of. destruct (heap st !! l) as [d|]; [|discriminate].
  intros Hv. exists d. split; [reflexivity|exact Hv].
Qed.

Lemma reconcile_at_first_match st driving_info records a j record d r :
  heap st !! driving_info = Some d → d !! address_key self = Some a →
  is_first_match self st records a j record →
  heap st !! record = Some r →
  get_closest_record_with_driving_info self driving_info records st
  = (Ret (PyDict (length (heap st))),
     mkState (heap st ++ [d ∪ r]) (self_output_speech st)).
Proof.
  intros Hd Ha (Hj & Hrec & Hbefore) Hr.
  assert (Hb : r !! address_key self = Some a).
  { unfold address_of in Hrec. rewrite Hr in Hrec. exact Hrec. }
  revert j Hj Hbefore.
  induction records as [|first rest IH]; intros j Hj Hbefore.
  - rewrite lookup_nil in Hj. discriminate.
  - destruct j as [|j]; cbn in Hj.
    + injection Hj as ->. eapply reconcile_hit; eassumption.
    + destruct (Hbefore 0%nat first) as (b & Hfirst & Hne);
        [lia|reflexivity|].
      rewrite (reconcile_skip self st driving_info first rest a b);
        [|unfold address_of; rewrite Hd; exact Ha|exact Hfirst|exact Hne].
      apply (IH j Hj). intros j' l Hj' Hl.
      apply (Hbefore (Datatypes.S j') l); [lia|exact Hl].
Qed.

Lemma first_match_exists st records a :
  Forall (λ l, is_Some (address_of self st l)) records →
  Exists (λ l, address_of self st l = Some a) records →
  ∃ j record, is_first_match self st records a j record.
Proof.
  induction 1 as [|first rest [b Hb] _ IH]; intros Hex; [inversion Hex|].
  destruct (decide (b = a)) as [->|Hne].
  - exists 0%nat, first. split; [reflexivity|]. split; [exact Hb|].
    intros j' l Hj'. lia.
  - apply Exists_cons in Hex as [Hfirst|Hrest]; [congruence|].
    destruct (IH Hrest) as (j & record & Hj & Hrec & Hbefore).
    exists (Datatypes.S j), record. split; [exact Hj|]. split; [exact Hrec|].
    intros [|j'] l Hj' Hl; cbn in Hl.
    + injection Hl as <-. exists b. split; [exact Hb|exact Hne].
    + apply (Hbefore j' l); [lia|exact Hl].
Qed.

(** A missing address key raises [KeyError] and changes nothing: when the
    driving info lacks it and there is a record to compare with, and when a
    record lacks it and no record before it holds the address looked for,
    also if a later record does. *)
Theorem get_closest_record_with_driving_info_missing_address
    (st : state) (driving_info : loc) (records : list loc) :
  (∀ d, records ≠ [] → heap st !! driving_info = Some d →
     d !! address_key self = None →
     get_closest_record_with_driving_info self driving_info records st
     = (Raise KeyError, st))
  ∧ (∀ a i record r,
       address_of self st driving_info = Some a →
       records !! i = Some record → heap st !! record = Some r →
       r !! address_key self = None →
       (∀ j l, (j < i)%nat → records !! j = Some l →
          ∃ b, address_of self st l = Some b ∧ b ≠ a) →
       get_closest_record_with_driving_info self driving_info records st
       = (Raise KeyError, st)).
Proof.
  split.
  - intros d Hne Hd Hk. destruct records as [|first rest]; [done|].
    cbn [get_closest_record_with_driving_info].
    apply bind_Raise. eapply getitem_None; eassumption.
  - intros a i record r Ha Hi Hr Hk. revert i Hi.
    induction records as [|first rest IH]; intros i Hi Hbefore.
    + rewrite lookup_nil in Hi. discriminate.
    + destruct i as [|i]; cbn in Hi.
      * injection Hi as ->.
        destruct (address_of_Some _ _ _ Ha) as (d & Hd & Hda).
        cbn [get_closest_record_with_driving_info].
        rewrite (bind_Ret _ _ _ _ _ (getitem_Some _ _ _ _ _ Hd Hda)).
        apply bind_Raise. eapply getitem_None; eassumption.
      * destruct (Hbefore 0%nat first) as (b & Hfirst & Hne);
          [lia|reflexivity|].
        rewrite (reconcile_skip self st driving_info first rest a b Ha Hfirst Hne).
        apply (IH i Hi). intros j l Hj Hl.
        apply (Hbefore (Datatypes.S j) l); [lia|exact Hl].
Qed.

(** With an address in the driving info and in every record,
    [get_closest_record_with_driving_info] returns [None] exactly when no
    record holds the driving info's address, and then changes nothing; and
    when some record holds it, the call raises nothing and returns a
    dictionary, the one it adds to the store: consistent inputs always give
    a dictionary. *)
Theorem get_closest_record_with_driving_info_None_iff
    (st : state) (driving_info : loc) (records : list loc) (a : Val) :
  address_of self st driving_info = Some a →
  Forall (λ l, is_Some (address_of self st l)) records →
  ((get_closest_record_with_driving_info self driving_info records st).1
   = Ret PyNone
   ↔ Forall (λ l, address_of self st l ≠ Some a) records)
  ∧ (Forall (λ l, address_of self st l ≠ Some a) records →
     get_closest_record_with_driving_info self driving_info records st
     = (Ret PyNone, st))
  ∧ (Exists (λ l, address_of self st l = Some a) records →
     ∃ merged,
       get_closest_record_with_driving_info self driving_info records st
       = (Ret (PyDict (length (heap st))),
          mkState (heap st ++ [merged]) (self_output_speech st))).
Proof.
  intros Ha Hall. split; [|split].
  - induction Hall as [|first rest [b Hb] _ IH].
    + split; [constructor|reflexivity].
    + destruct (decide (b = a)) as [->|Hne].
      * destruct (address_of_Some _ _ _ Ha) as (d & Hd & Hda).
        destruct (address_of_Some _ _ _ Hb) as (r & Hr & Hrb).
        rewrite (reconcile_hit self st driving_info first rest d r a
                   Hd Hda Hr Hrb).
        split; [discriminate|].
        intros Hno. apply Forall_cons in Hno as [Hfirst _]. contradiction.
      * rewrite (reconcile_skip self st driving_info first rest a b Ha Hb Hne).
        rewrite IH. split.
        -- intros Hrest. apply Forall_cons. split; [congruence|exact Hrest].
        -- intros Hno. apply Forall_cons in Hno as [_ Hrest]. exact Hrest.
  - intros Hno. induction Hall as [|first rest [b Hb] _ IH]; [reflexivity|].
    apply Forall_cons in Hno as [Hfirst Hrest].
    rewrite (reconcile_skip self st driving_info first rest a b Ha Hb);
      [exact (IH Hrest)|congruence].
  - intros Hex.
    destruct (first_match_exists st records a Hall Hex)
      as (j & record & Hmatch).
    destruct (address_of_Some _ _ _ Ha) as (d & Hd & Hda).
    assert (∃ r, heap st !! record = Some r) as [r Hr].
    { destruct Hmatch as (_ & Hrec & _).
      destruct (address_of_Some _ _ _ Hrec) as (r & Hr & _). eauto. }
    exists (d ∪ r).
    exact (reconcile_at_first_match st driving_info records a j record d r
             Hd Hda Hmatch Hr).
Qed.
End reconcile_edges.

Lemma get_closest_record_with_driving_info_missing_address_witness :
  get_closest_record_with_driving_info (polls_finder prepare_copy) 0%nat
    [1]%nat
    (mkState [ {["Driving distance" := VNum 644]};
               {["Address" := VStr "20 Main St"]} ] (Str polls_template))
  = (Raise KeyError,
     mkState [ {["Driving distance" := VNum 644]};
               {["Address" := VStr "20 Main St"]} ] (Str polls_template))
  ∧ get_closest_record_with_driving_info (polls_finder prepare_copy) 2%nat
      [0; 1; 0]%nat
      (mkState [ {["Address" := VStr "5 Main St"]};
                 {["Name" := VStr "Library"]};
                 {["Address" := VStr "20 Main St"]} ] (Str polls_template))
    = (Raise KeyError,
       mkState [ {["Address" := VStr "5 Main St"]};
                 {["Name" := VStr "Library"]};
                 {["Address" := VStr "20 Main St"]} ] (Str polls_template)).
Proof.
  split.
  - apply (proj1 (get_closest_record_with_driving_info_missing_address
                    (polls_finder prepare_copy) _ 0%nat [1]%nat)
             {["Driving distance" := VNum 644]}).
    + discriminate.
    + reflexivity.
    + vm_compute. reflexivity.
  - apply (proj2 (get_closest_record_with_driving_info_missing_address
                    (polls_finder prepare_copy) _ 2%nat [0; 1; 0]%nat)
             (VStr "20 Main St") 1%nat 1%nat {["Name" := VStr "Library"]}).
    + vm_compute. reflexivity.
    + reflexivity.
    + reflexivity.
    + vm_compute. reflexivity.
    + intros [|j] l Hj Hl; [|lia]. injection Hl as <-.
      exists (VStr "5 Main St"). split; [vm_compute; reflexivity|discriminate].
Defined.

Lemma get_closest_record_with_driving_info_None_iff_witness :
  (((get_closest_record_with_driving_info (polls_finder prepare_copy) 4%nat
       [0; 1]%nat two_polls_measured).1 = Ret PyNone
    ↔ Forall (λ l, address_of (polls_finder prepare_copy) two_polls_measured l
                   ≠ Some (VStr "1 City Hall Sq")) [0; 1]%nat)
   ∧ get_closest_record_with_driving_info (polls_finder prepare_copy) 4%nat
       [0; 1]%nat two_polls_measured
     = (Ret PyNone, two_polls_measured))
  ∧ ∃ merged,
      get_closest_record_with_driving_info (polls_finder prepare_copy) 3%nat
        [0; 1]%nat two_polls_measured
      = (Ret (PyDict (length (heap two_polls_measured))),
         mkState (heap two_polls_measured ++ [merged])
           (self_output_speech two_polls_measured)).
Proof.
  assert (Hall : Forall (λ l, is_Some (address_of (polls_finder prepare_copy)
                                         two_polls_measured l)) [0; 1]%nat).
  { apply Forall_cons_2; [|apply Forall_cons_2; [|apply Forall_nil_2]];
      vm_compute; eexists; reflexivity. }
  split; [split|].
  - apply (get_closest_record_with_driving_info_None_iff
             (polls_finder prepare_copy) two_polls_measured 4%nat [0; 1]%nat
             (VStr "1 City Hall Sq")); [vm_compute; reflexivity|exact Hall].
  - apply (get_closest_record_with_driving_info_None_iff
             (polls_finder prepare_copy) two_polls_measured 4%nat [0; 1]%nat
             (VStr "1 City Hall Sq")); [vm_compute; reflexivity|exact Hall|].
    apply Forall_cons_2; [|apply Forall_cons_2; [|apply Forall_nil_2]];
      vm_compute; discriminate.
  - apply (get_closest_record_with_driving_info_None_iff
             (polls_finder prepare_copy) two_polls_measured 3%nat [0; 1]%nat
             (VStr "20 Main St")); [vm_compute; reflexivity|exact Hall|].
    apply Exists_cons_tl, Exists_cons_hd. vm_compute. reflexivity.
Defined.

(** ** Rendering, path by path *)

Section render_paths.
Variable self : Finder.

(** When the template can be formatted from the record,
    [set_output_speech] stores the formatted text in place of the template
    and leaves the store alone, and [get_output_speech] then returns that
    text. *)
Theorem set_output_speech_then_get
    (st : state) (template : string) (l : loc) (d : Dict) (text : string) :
  self_output_speech st = Str template →
  heap st !! l = Some d →
  py_format template [] d = Ret text →
  set_output_speech self (PyDict l) st
  = (Ret tt, mkState (heap st) (Str text))
  ∧ (set_output_speech self (PyDict l) ;; get_output_speech self) st
    = (Ret (Str text), mkState (heap st) (Str text)).
Proof.
  intros Hs Hl Hf.
  pose proof (set_output_speech_formatted self st template l d text Hs Hl Hf)
    as Hset.
  split; [exact Hset|].
  rewrite (bind_Ret _ _ _ _ _ Hset). reflexivity.
Qed.

(** The handler of [set_output_speech] is for [KeyError] alone: handed
    [None] it raises [TypeError], and any other exception of the
    formatting (a positional field, a stray brace) leaves it as raised;
    the output speech and the store stay as they were. *)
Theorem set_output_speech_uncaught (st : state) (template : string) :
  self_output_speech st = Str template →
  set_output_speech self PyNone st = (Raise TypeError, st)
  ∧ ∀ l d e,
      heap st !! l = Some d →
      py_format template [] d = Raise e →
      e ≠ KeyError →
      set_output_speech self (PyDict l) st = (Raise e, st).
Proof.
  intros Hs. split.
  - unfold set_output_speech.
    apply try_except_passed; [|discriminate].
    cbv beta delta [bind get_self_output_speech format_method
                    unpack_keywords ret raise].
    rewrite Hs. reflexivity.
  - intros l d e Hl Hf Hne. unfold set_output_speech.
    apply try_except_passed; [|exact Hne].
    cbv beta delta [bind get_self_output_speech format_method
                    unpack_keywords deref lift ret].
    rewrite Hs. cbn. rewrite Hl. cbn. rewrite Hf. reflexivity.
Qed.

(** Every way [set_output_speech] can end: it never touches the store; if
    it raises, the output speech is what it was; and it returns only after
    storing the text formatted from a string template and the dictionary it
    was handed.  No path stores the apology. *)
Theorem set_output_speech_outcomes
    (format_keys : obj) (st : state) (res : outcome unit) (st' : state) :
  set_output_speech self format_keys st = (res, st') →
  heap st' = heap st
  ∧ match res with
    | Raise _ => st' = st
    | Ret _ =>
        ∃ template l d text,
          self_output_speech st = Str template
          ∧ format_keys = PyDict l
          ∧ heap st !! l = Some d
          ∧ py_format template [] d = Ret text
          ∧ self_output_speech st' = Str text
    end.
Proof.
  unfold set_output_speech. intros Hrun.
  match type of Hrun with
  | try_except ?body _ _ _ = _ =>
      destruct (body st) as [[u|e] s1] eqn:Hbody
  end.
  - rewrite (try_except_Ret _ _ _ _ _ _ Hbody) in Hrun.
    injection Hrun as <- <-.
    cbv beta delta [bind get_self_output_speech format_method
                    unpack_keywords deref lift ret raise
                    set_self_output_speech] in Hbody.
    destruct (self_output_speech st) as [template|g] eqn:Hs;
      [|discriminate].
    destruct format_keys as [|l]; [discriminate|].
    cbn in Hbody.
    destruct (heap st !! l) as [d|] eqn:Hl; [|discriminate].
    cbn in Hbody.
    destruct (py_format template [] d) as [text|e] eqn:Hf; [|discriminate].
    injection Hbody as _ <-. split; [reflexivity|].
    exists template, l, d, text. done.
  - assert (Hs1 : s1 = st).
    { cbv beta delta [bind get_self_output_speech format_method
                      unpack_keywords deref lift ret raise
                      set_self_output_speech] in Hbody.
      destruct (self_output_speech st) as [template|g];
        [|injection Hbody as _ <-; reflexivity].
      destruct format_keys as [|l]; [injection Hbody as _ <-; reflexivity|].
      cbn in Hbody.
      destruct (heap st !! l) as [d|]; [|injection Hbody as _ <-; reflexivity].
      cbn in Hbody.
      destruct (py_format template [] d) as [text|e'];
        [discriminate|injection Hbody as _ <-; reflexivity]. }
    subst s1.
    destruct (decide (e = KeyError)) as [->|Hne].
    + rewrite (try_except_caught _ _ _ _ _ Hbody) in Hrun.
      rewrite (bind_Raise _ _ _ _ _ (load_global_ERROR_MESSAGE st)) in Hrun.
      injection Hrun as <- <-. done.
    + rewrite (try_except_passed _ _ _ _ _ _ Hbody Hne) in Hrun.
      injection Hrun as <- <-. done.
Qed.
End render_paths.

Lemma set_output_speech_then_get_witness :
  set_output_speech (polls_finder prepare_copy) (PyDict 1)
    (mkState (heap two_polls) (Str "Vote at {Name}, {Address}."))
  = (Ret tt,
     mkState (heap two_polls) (Str "Vote at Library, 20 Main St."))
  ∧ (set_output_speech (polls_finder prepare_copy) (PyDict 1) ;;
     get_output_speech (polls_finder prepare_copy))
      (mkState (heap two_polls) (Str "Vote at {Name}, {Address}."))
    = (Ret (Str "Vote at Library, 20 Main St."),
       mkState (heap two_polls) (Str "Vote at Library, 20 Main St.")).
Proof.
  apply (set_output_speech_then_get (polls_finder prepare_copy)
           (mkState (heap two_polls) (Str "Vote at {Name}, {Address}."))
           "Vote at {Name}, {Address}." 1%nat
           (<["Address" := VStr "20 Main St"]> {["Name" := VStr "Library"]})
           "Vote at Library, 20 Main St.").
  - reflexivity.
  - reflexivity.
  - vm_compute. reflexivity.
Defined.

Lemma set_output_speech_uncaught_witness :
  set_output_speech (polls_finder prepare_copy) PyNone
    (mkState (heap two_polls) (Str "Vote at {}, {Address}."))
  = (Raise TypeError,
     mkState (heap two_polls) (Str "Vote at {}, {Address}."))
  ∧ set_output_speech (polls_finder prepare_copy) (PyDict 1)
      (mkState (heap two_polls) (Str "Vote at {}, {Address}."))
    = (Raise IndexError,
       mkState (heap two_polls) (Str "Vote at {}, {Address}.")).
Proof.
  split.
  - apply (set_output_speech_uncaught (polls_finder prepare_copy)
             (mkState (heap two_polls) (Str "Vote at {}, {Address}."))
             "Vote at {}, {Address}.").
    reflexivity.
  - apply (proj2 (set_output_speech_uncaught (polls_finder prepare_copy)
                    (mkState (heap two_polls) (Str "Vote at {}, {Address}."))
                    "Vote at {}, {Address}." eq_refl)
             1%nat
             (<["Address" := VStr "20 Main St"]> {["Name" := VStr "Library"]})
             IndexError).
    + reflexivity.
    + vm_compute. reflexivity.
    + discriminate.
Defined.

Lemma set_output_speech_outcomes_witness :
  heap (mkState (heap two_polls) (Str "Vote at Library, 20 Main St."))
  = heap (mkState (heap two_polls) (Str "Vote at {Name}, {Address}."))
  ∧ ∃ template l d text,
      self_output_speech
        (mkState (heap two_polls) (Str "Vote at {Name}, {Address}."))
      = Str template
      ∧ PyDict 1 = PyDict l
      ∧ heap (mkState (heap two_polls) (Str "Vote at {Name}, {Address}."))
          !! l = Some d
      ∧ py_format template [] d = Ret text
      ∧ self_output_speech
          (mkState (heap two_polls) (Str "Vote at Library, 20 Main St."))
        = Str text.
Proof.
  apply (set_output_speech_outcomes (polls_finder prepare_copy) (PyDict 1)
           (mkState (heap two_polls) (Str "Vote at {Name}, {Address}."))
           (Ret tt)
           (mkState (heap two_polls) (Str "Vote at Library, 20 Main St."))).
  vm_compute. reflexivity.
Defined.

(** ** The pipeline, step by step *)

Lemma bind_congr {S A B} (m m' : ST S A) (k k' : A → ST S B) st :
  m st = m' st → (∀ a st', k a st' = k' a st') →
  bind m k st = bind m' k' st.
Proof.
  intros Hm Hk. unfold bind. rewrite Hm.
  destruct (m' st) as [[a|e] st']; [apply Hk|reflexivity].
Qed.

(** The methods that scan the records look at the finder for its address
    key only. *)
Lemma get_all_destinations_address_key (s1 s2 : Finder) records st :
  address_key s1 = address_key s2 →
  get_all_destinations s1 records st = get_all_destinations s2 records st.
Proof.
  intros Hk. revert st.
  induction records as [|record rest IH]; intros st; [reflexivity|].
  cbn [get_all_destinations]. rewrite Hk.
  apply bind_ext. intros v st'.
  apply bind_congr; [apply IH|reflexivity].
Qed.

Lemma reconcile_address_key (s1 s2 : Finder) driving_info records st :
  address_key s1 = address_key s2 →
  get_closest_record_with_driving_info s1 driving_info records st
  = get_closest_record_with_driving_info s2 driving_info records st.
Proof.
  intros Hk. revert st. induction records as [|record rest IH]; intros st;
    [reflexivity|].
  cbn [get_closest_record_with_driving_info]. rewrite Hk.
  apply bind_ext. intros a st1. apply bind_ext. intros b st2.
  destruct (decide (a = b)); [reflexivity|apply IH].
Qed.

Section pipeline_steps.
Context `{FinderServices}.
Variable self : Finder.

(** A record without the address key stops the pipeline with [KeyError]
    when the destinations are collected: [_start] ends in the state the
    augmentation left, whatever the distance service would have answered,
    and the output speech is not rendered. *)
Theorem _start_malformed_record
    (records records' : list loc) (st st1 : state) :
  csv_utils_add_city_and_state_to_records records (address_key self)
    CITY STATE st = (Ret records', st1) →
  Forall (λ l, is_Some (heap st1 !! l)) records' →
  Exists (λ l, address_of self st1 l = None) records' →
  _start self records st = (Raise KeyError, st1).
Proof.
  intros Haugment Hrefs Hex. unfold _start.
  unfold add_city_and_state_to_records at 1.
  rewrite (bind_Ret _ _ _ _ _ Haugment).
  apply bind_Raise. apply get_all_destinations_Raise; assumption.
Qed.

(** What the preparation function returns never reaches the speech:
    [_start] ends the same, in result and in state, when the preparation
    function is replaced by one with the same effects that returns
    [None]. *)
Theorem _start_discards_the_prepared_result
    (f : obj → M obj) (records : list loc) (st : state) :
  _start (with_formatter self (returning_None f)) records st
  = _start (with_formatter self f) records st.
Proof.
  unfold _start, add_city_and_state_to_records,
    get_driving_times_to_destinations, get_closest_destination.
  cbn [with_formatter address_key origin_address field_formatter].
  apply bind_ext. intros records' st1.
  apply bind_congr; [apply get_all_destinations_address_key; reflexivity|].
  intros destinations st2. apply bind_ext. intros driving_times st3.
  apply bind_ext. intros closest_dest st4.
  apply bind_congr; [apply reconcile_address_key; reflexivity|].
  intros closest_record st5.
  unfold returning_None, bind, ret.
  destruct (f closest_record st5) as [[prepared|e] st6]; reflexivity.
Qed.
End pipeline_steps.

Lemma _start_malformed_record_witness :
  _start (H := boston) (polls_finder prepare_copy) [0; 1]%nat
    (mkState [ {["Address" := VStr "5 Main St"]};
               {["Name" := VStr "Library"]} ] (Str polls_template))
  = (Raise KeyError,
     mkState
       [ <["City" := VStr "Boston"]> (<["State" := VStr "MA"]>
           {["Address" := VStr "5 Main St"]});
         <["City" := VStr "Boston"]> (<["State" := VStr "MA"]>
           {["Name" := VStr "Library"]}) ]
       (Str polls_template)).
Proof.
  apply (_start_malformed_record (H := boston) (polls_finder prepare_copy)
           [0; 1]%nat [0; 1]%nat).
  - vm_compute. reflexivity.
  - apply Forall_cons_2; [|apply Forall_cons_2; [|apply Forall_nil_2]];
      vm_compute; eexists; reflexivity.
  - apply Exists_cons_tl, Exists_cons_hd. vm_compute. reflexivity.
Defined.

(** A preparation function that returns a copy and the same function with
    its result dropped give the same speech. *)
Example _start_discards_the_prepared_copy :
  _start (H := boston) (polls_finder (returning_None prepare_copy))
    [0; 1]%nat two_polls
  = _start (H := boston) (polls_finder prepare_copy) [0; 1]%nat two_polls.
Proof. vm_compute. reflexivity. Qed.

(** ** The pipeline, end to end *)

Section end_to_end.
Context `{FinderServices}.
Variable self : Finder.

Lemma get_closest_destination_is_first_closest st infos :
  infos ≠ [] →
  Forall (λ l, is_Some (distance_value st l)) infos →
  ∃ i c, is_first_closest st infos i c
         ∧ get_closest_destination self infos st = (Ret c, st).
Proof.
  intros Hne Hnum. destruct infos as [|first rest]; [done|].
  apply Forall_cons in Hnum as [[m Hm] Hrest].
  destruct (min_loop_first_minimum st rest first m Hrest)
    as (l & n & Hrun & Hall & Hcase).
  assert (Hgo : get_closest_destination self (first :: rest) st = (Ret l, st)).
  { unfold get_closest_destination, py_min.
    rewrite (bind_Ret _ _ _ _ _ (distance_value_getitem _ _ _ Hm)).
    exact Hrun. }
  assert (Hleast : ∀ j l' n', (first :: rest) !! j = Some l' →
                     distance_value st l' = Some n' → (n ≤ n')%Z).
  { intros [|j] l' n' Hj Hd; cbn in Hj.
    - injection Hj as <-. rewrite Hm in Hd. injection Hd as <-.
      destruct Hcase as [[_ ->]|(i & _ & _ & Hn & _)]; lia.
    - eapply Hall; eassumption. }
  destruct Hcase as [[-> ->]|(i & Hi & Hd & Hn & Hbefore)].
  - exists 0%nat, first. split; [|exact Hgo].
    split; [reflexivity|]. exists m. split; [exact Hm|].
    split; [exact Hleast|]. intros j l' n' Hj. lia.
  - exists (Datatypes.S i), l. split; [|exact Hgo].
    split; [exact Hi|]. exists n. split; [exact Hd|].
    split; [exact Hleast|].
    intros [|j] l' n' Hj Hl' Hd'; cbn in Hl'.
    + injection Hl' as <-. rewrite Hm in Hd'. injection Hd' as <-. lia.
    + eapply Hbefore; [|eassumption..]. lia.
Qed.

(** When the records the augmentation returns all hold an address, and
    the distance service leaves them as they are and answers with driving
    infos that each hold a numeric distance and the address of one of the
    destinations it was asked about, [_start] goes on to prepare and render
    exactly one new dictionary: the first driving info at the least
    distance merged over the first record that holds its address. *)
Theorem _start_renders_the_closest_record
    (records records' : list loc) (dests : list Val) (infos : list loc)
    (st st1 st2 : state) :
  csv_utils_add_city_and_state_to_records records (address_key self)
    CITY STATE st = (Ret records', st1) →
  Forall2 (λ l v, address_of self st1 l = Some v) records' dests →
  g_maps_utils_get_driving_info (origin_address self) (address_key self)
    dests st1 = (Ret infos, st2) →
  (∀ (l : loc) d, heap st1 !! l = Some d → heap st2 !! l = Some d) →
  infos ≠ [] →
  Forall (λ l, is_Some (distance_value st2 l)) infos →
  Forall (λ l, ∃ a, address_of self st2 l = Some a ∧ a ∈ dests) infos →
  ∃ i c d a j record r,
    is_first_closest st2 infos i c
    ∧ heap st2 !! c = Some d ∧ d !! address_key self = Some a
    ∧ is_first_match self st2 records' a j record
    ∧ heap st2 !! record = Some r
    ∧ _start self records st
      = (field_formatter self (PyDict (length (heap st2))) ;;
         set_output_speech self (PyDict (length (heap st2))))
          (mkState (heap st2 ++ [d ∪ r]) (self_output_speech st2)).
Proof.
  intros Haugment Haddr Hdriving Hkept Hne Hnum Hkeyed.
  assert (Hlater : ∀ l v, address_of self st1 l = Some v →
                     address_of self st2 l = Some v).
  { intros l v Hv. destruct (address_of_Some _ _ _ _ Hv) as (d & Hd & Hk).
    unfold address_of. rewrite (Hkept l d Hd). exact Hk. }
  destruct (get_closest_destination_is_first_closest st2 infos Hne Hnum)
    as (i & c & Hclosest & Hmin).
  assert (Hc : c ∈ infos).
  { destruct Hclosest as [Hi _]. apply list_elem_of_lookup. eauto. }
  rewrite Forall_forall in Hkeyed.
  destruct (Hkeyed c Hc) as (a & Ha & Hdest).
  destruct (address_of_Some _ _ _ _ Ha) as (d & Hd & Hda).
  assert (Hall : Forall (λ l, is_Some (address_of self st2 l)) records').
  { clear -Haddr Hlater. induction Haddr as [|l v ls vs Hv _ IH];
      constructor; [eexists; apply Hlater, Hv|exact IH]. }
  assert (Hex : Exists (λ l, address_of self st2 l = Some a) records').
  { apply list_elem_of_lookup in Hdest as [k Hk].
    destruct (Forall2_lookup_r _ _ _ _ _ Haddr Hk) as (l & Hl & Hv).
    apply Exists_exists. exists l. split.
    - apply list_elem_of_lookup. eauto.
    - apply Hlater, Hv. }
  destruct (first_match_exists self st2 records' a Hall Hex)
    as (j & record & Hmatch).
  assert (∃ r, heap st2 !! record = Some r) as [r Hr].
  { destruct Hmatch as (_ & Hrec & _).
    destruct (address_of_Some _ _ _ _ Hrec) as (r & Hr & _). eauto. }
  exists i, c, d, a, j, record, r.
  repeat (split; [assumption|]).
  unfold _start, add_city_and_state_to_records,
    get_driving_times_to_destinations.
  rewrite (bind_Ret _ _ _ _ _ Haugment).
  rewrite (bind_Ret _ _ _ _ _ (get_all_destinations_Ret self st1 _ _ Haddr)).
  rewrite (bind_Ret _ _ _ _ _ Hdriving).
  rewrite (bind_Ret _ _ _ _ _ Hmin).
  rewrite (bind_Ret _ _ _ _ _
             (reconcile_at_first_match self st2 c records' a j record d r
                Hd Hda Hmatch Hr)).
  reflexivity.
Qed.
End end_to_end.

Lemma _start_renders_the_closest_record_witness :
  ∃ i c d a j record r,
    is_first_closest (H := boston) two_polls_driven [2; 3]%nat i c
    ∧ heap two_polls_driven !! c = Some d ∧ d !! "Address" = Some a
    ∧ is_first_match (polls_finder prepare_copy) two_polls_driven
        [0; 1]%nat a j record
    ∧ heap two_polls_driven !! record = Some r
    ∧ _start (H := boston) (polls_finder prepare_copy) [0; 1]%nat two_polls
      = (prepare_copy (PyDict (length (heap two_polls_driven))) ;;
         set_output_speech (polls_finder prepare_copy)
           (PyDict (length (heap two_polls_driven))))
          (mkState (heap two_polls_driven ++ [d ∪ r])
             (self_output_speech two_polls_driven)).
Proof.
  apply (_start_renders_the_closest_record (H := boston)
           (polls_finder prepare_copy) [0; 1]%nat [0; 1]%nat
           [VStr "5 Main St"; VStr "20 Main St"] [2; 3]%nat
           two_polls two_polls_augmented two_polls_driven).
  - vm_compute. reflexivity.
  - apply Forall2_cons_2; [|apply Forall2_cons_2; [|apply Forall2_nil_2]];
      vm_compute; reflexivity.
  - vm_compute. reflexivity.
  - intros [|[|l]] d Hl; vm_compute in Hl; try discriminate;
      injection Hl as <-; vm_compute; reflexivity.
  - discriminate.
  - apply Forall_cons_2; [|apply Forall_cons_2; [|apply Forall_nil_2]];
      vm_compute; eexists; reflexivity.
  - apply Forall_cons_2; [|apply Forall_cons_2; [|apply Forall_nil_2]].
    + exists (VStr "5 Main St"). split; [vm_compute; reflexivity|].
      apply list_elem_of_here.
    + exists (VStr "20 Main St"). split; [vm_compute; reflexivity|].
      apply list_elem_of_further, list_elem_of_here.
Defined.

(** * Further properties of voting_intent.py *)

Section polling_location_paths.
Import voting_intent.
Context `{VotingServices}.

(** With the address in the session, the answers of the four services and
    a speech that formats, [get_polling_location] makes exactly five calls,
    in this order and each fed with the answer to the one before, and
    returns the constructed response with three attributes set: the
    formatted speech, the reprompt text and the end-of-session flag. *)
Theorem get_polling_location_success
    (req : MyCityRequestDataModel) (log : list call)
    (v : string) (cs : candidates) (c : candidate) (w : ward_precinct)
    (p : Dict) (name address : Val) (text : string) :
  session_attributes req !! CURRENT_ADDRESS_KEY = Some (VStr v) →
  geocode_address_candidates (v +:+ ", Boston, MA") = Ret cs →
  select_top_address_candidate cs = Ret c →
  get_ward_precinct_info c = Ret w →
  vote_utils_get_polling_location w = Ret p →
  p !! "Location Name" = Some name →
  p !! "Location Address" = Some address →
  py_format LOCATION_SPEECH [name; address] ∅ = Ret text →
  get_polling_location req log
  = (Ret (mkResponse (Some text) (Some "Voting Intent")
            (card_title new_response) (Some true)),
     (log ++ [received req;
              GeocodeAddressCandidates (v +:+ ", Boston, MA");
              SelectTopAddressCandidate cs;
              GetWardPrecinctInfo c;
              GetPollingLocation w])%list).
Proof.
  intros Hv Hcs Hc Hw Hp Hname Haddress Htext.
  cbv beta delta [get_polling_location bind outside subscript iadd_str
                  ret raise lift].
  cbn beta iota zeta delta [fst snd]. rewrite Hv.
  cbn beta iota zeta delta [fst snd]. rewrite Hcs.
  cbn beta iota zeta delta [fst snd]. rewrite Hc.
  cbn beta iota zeta delta [fst snd]. rewrite Hw.
  cbn beta iota zeta delta [fst snd]. rewrite Hp.
  cbn beta iota zeta delta [fst snd]. rewrite Hname.
  cbn beta iota zeta delta [fst snd]. rewrite Haddress.
  cbn beta iota zeta delta [fst snd]. rewrite Htext.
  cbn beta iota zeta delta [fst snd].
  rewrite <- !app_assoc. reflexivity.
Qed.

(** An exception raised by one of the four services leaves
    [get_polling_location] as it was raised; no later service is called
    and no response is returned. *)
Theorem get_polling_location_service_failure
    (req : MyCityRequestDataModel) (log : list call) (v : string) (e : exn) :
  session_attributes req !! CURRENT_ADDRESS_KEY = Some (VStr v) →
  (geocode_address_candidates (v +:+ ", Boston, MA") = Raise e →
   get_polling_location req log
   = (Raise e,
      (log ++ [received req;
               GeocodeAddressCandidates (v +:+ ", Boston, MA")])%list))
  ∧ (∀ cs,
       geocode_address_candidates (v +:+ ", Boston, MA") = Ret cs →
       select_top_address_candidate cs = Raise e →
       get_polling_location req log
       = (Raise e,
          (log ++ [received req;
                   GeocodeAddressCandidates (v +:+ ", Boston, MA");
                   SelectTopAddressCandidate cs])%list))
  ∧ (∀ cs c,
       geocode_address_candidates (v +:+ ", Boston, MA") = Ret cs →
       select_top_address_candidate cs = Ret c →
       get_ward_precinct_info c = Raise e →
       get_polling_location req log
       = (Raise e,
          (log ++ [received req;
                   GeocodeAddressCandidates (v +:+ ", Boston, MA");
                   SelectTopAddressCandidate cs;
                   GetWardPrecinctInfo c])%list))
  ∧ (∀ cs c w,
       geocode_address_candidates (v +:+ ", Boston, MA") = Ret cs →
       select_top_address_candidate cs = Ret c →
       get_ward_precinct_info c = Ret w →
       vote_utils_get_polling_location w = Raise e →
       get_polling_location req log
       = (Raise e,
          (log ++ [received req;
                   GeocodeAddressCandidates (v +:+ ", Boston, MA");
                   SelectTopAddressCandidate cs;
                   GetWardPrecinctInfo c;
                   GetPollingLocation w])%list)).
Proof.
  intros Hv. repeat split.
  - intros Hcs.
    cbv beta delta [get_polling_location bind outside subscript iadd_str
                    ret raise lift].
    cbn beta iota zeta delta [fst snd]. rewrite Hv.
    cbn beta iota zeta delta [fst snd]. rewrite Hcs.
    cbn beta iota zeta delta [fst snd].
    rewrite <- !app_assoc. reflexivity.
  - intros cs Hcs Hc.
    cbv beta delta [get_polling_location bind outside subscript iadd_str
                    ret raise lift].
    cbn beta iota zeta delta [fst snd]. rewrite Hv.
    cbn beta iota zeta delta [fst snd]. rewrite Hcs.
    cbn beta iota zeta delta [fst snd]. rewrite Hc.
    cbn beta iota zeta delta [fst snd].
    rewrite <- !app_assoc. reflexivity.
  - intros cs c Hcs Hc Hw.
    cbv beta delta [get_polling_location bind outside subscript iadd_str
                    ret raise lift].
    cbn beta iota zeta delta [fst snd]. rewrite Hv.
    cbn beta iota zeta delta [fst snd]. rewrite Hcs.
    cbn beta iota zeta delta [fst snd]. rewrite Hc.
    cbn beta iota zeta delta [fst snd]. rewrite Hw.
    cbn beta iota zeta delta [fst snd].
    rewrite <- !app_assoc. reflexivity.
  - intros cs c w Hcs Hc Hw Hp.
    cbv beta delta [get_polling_location bind outside subscript iadd_str
                    ret raise lift].
    cbn beta iota zeta delta [fst snd]. rewrite Hv.
    cbn beta iota zeta delta [fst snd]. rewrite Hcs.
    cbn beta iota zeta delta [fst snd]. rewrite Hc.
    cbn beta iota zeta delta [fst snd]. rewrite Hw.
    cbn beta iota zeta delta [fst snd]. rewrite Hp.
    cbn beta iota zeta delta [fst snd].
    rewrite <- !app_assoc. reflexivity.
Qed.

(** A polling location without its name or without its address raises
    [KeyError] after all four services were called, and a speech template
    that does not format raises what the formatting raised; no response is
    returned either way. *)
Theorem get_polling_location_bad_location
    (req : MyCityRequestDataModel) (log : list call)
    (v : string) (cs : candidates) (c : candidate) (w : ward_precinct)
    (p : Dict) :
  session_attributes req !! CURRENT_ADDRESS_KEY = Some (VStr v) →
  geocode_address_candidates (v +:+ ", Boston, MA") = Ret cs →
  select_top_address_candidate cs = Ret c →
  get_ward_precinct_info c = Ret w →
  vote_utils_get_polling_location w = Ret p →
  (p !! "Location Name" = None ∨ p !! "Location Address" = None →
   (get_polling_location req log).1 = Raise KeyError)
  ∧ (∀ name address e,
       p !! "Location Name" = Some name →
       p !! "Location Address" = Some address →
       py_format LOCATION_SPEECH [name; address] ∅ = Raise e →
       (get_polling_location req log).1 = Raise e).
Proof.
  intros Hv Hcs Hc Hw Hp. split.
  - intros Hmissing.
    cbv beta delta [get_polling_location bind outside subscript iadd_str
                    ret raise lift].
    cbn beta iota zeta delta [fst snd]. rewrite Hv.
    cbn beta iota zeta delta [fst snd]. rewrite Hcs.
    cbn beta iota zeta delta [fst snd]. rewrite Hc.
    cbn beta iota zeta delta [fst snd]. rewrite Hw.
    cbn beta iota zeta delta [fst snd]. rewrite Hp.
    cbn beta iota zeta delta [fst snd].
    destruct (p !! "Location Name") as [name|] eqn:Hname;
      cbn beta iota zeta delta [fst snd]; [|reflexivity].
    destruct Hmissing as [Hno|Hno]; [discriminate|].
    rewrite Hno. reflexivity.
  - intros name address e Hname Haddress Htext.
    cbv beta delta [get_polling_location bind outside subscript iadd_str
                    ret raise lift].
    cbn beta iota zeta delta [fst snd]. rewrite Hv.
    cbn beta iota zeta delta [fst snd]. rewrite Hcs.
    cbn beta iota zeta delta [fst snd]. rewrite Hc.
    cbn beta iota zeta delta [fst snd]. rewrite Hw.
    cbn beta iota zeta delta [fst snd]. rewrite Hp.
    cbn beta iota zeta delta [fst snd]. rewrite Hname.
    cbn beta iota zeta delta [fst snd]. rewrite Haddress.
    cbn beta iota zeta delta [fst snd]. rewrite Htext.
    reflexivity.
Qed.

(** A session value under the current-address key that is a number and
    not a string raises [TypeError] when the city and state are appended,
    before any service is called. *)
Theorem get_polling_location_address_not_a_string
    (req : MyCityRequestDataModel) (log : list call) (n : Z) :
  session_attributes req !! CURRENT_ADDRESS_KEY = Some (VNum n) →
  get_polling_location req log
  = (Raise TypeError, (log ++ [received req])%list).
Proof.
  intros Hv.
  cbv beta delta [get_polling_location bind outside subscript iadd_str
                  ret raise lift].
  cbn beta iota zeta delta [fst snd]. rewrite Hv. reflexivity.
Qed.
End polling_location_paths.

Lemma get_polling_location_success_witness :
  voting_intent.get_polling_location (H := boston_votes) request_with_address []
  = (Ret (voting_intent.mkResponse
            (Some "Your polling location is City Hall, at 1 City Hall Sq.")
            (Some "Voting Intent") None (Some true)),
     ([] ++ [voting_intent.received (H := boston_votes) request_with_address;
             voting_intent.GeocodeAddressCandidates
               ("10 Main St" +:+ ", Boston, MA");
             voting_intent.SelectTopAddressCandidate
               (["10 Main St, Boston, MA"]
                  : @voting_intent.candidates boston_votes);
             voting_intent.GetWardPrecinctInfo
               ("10 Main St, Boston, MA"
                  : @voting_intent.candidate boston_votes);
             voting_intent.GetPollingLocation
               ("0305" : @voting_intent.ward_precinct boston_votes)])%list).
Proof.
  apply (get_polling_location_success (H := boston_votes)
           request_with_address [] "10 Main St"
           (["10 Main St, Boston, MA"] : @voting_intent.candidates boston_votes)
           ("10 Main St, Boston, MA" : @voting_intent.candidate boston_votes)
           ("0305" : @voting_intent.ward_precinct boston_votes)
           (<["Location Name" := VStr "City Hall"]>
              {["Location Address" := VStr "1 City Hall Sq"]})
           (VStr "City Hall") (VStr "1 City Hall Sq")).
  - vm_compute. reflexivity.
  - vm_compute. reflexivity.
  - reflexivity.
  - reflexivity.
  - reflexivity.
  - vm_compute. reflexivity.
  - vm_compute. reflexivity.
  - vm_compute. reflexivity.
Defined.

Lemma get_polling_location_service_failure_witness :
  voting_intent.get_polling_location (H := votes_geocoder_down)
    request_with_address []
  = (Raise ValueError,
     ([] ++ [voting_intent.received (H := votes_geocoder_down)
               request_with_address;
             voting_intent.GeocodeAddressCandidates
               ("10 Main St" +:+ ", Boston, MA")])%list)
  ∧ voting_intent.get_polling_location (H := votes_lookup_down)
      request_with_address []
    = (Raise ValueError,
       ([] ++ [voting_intent.received (H := votes_lookup_down)
                 request_with_address;
               voting_intent.GeocodeAddressCandidates
                 ("10 Main St" +:+ ", Boston, MA");
               @voting_intent.SelectTopAddressCandidate votes_lookup_down
                 ["10 Main St, Boston, MA"];
               @voting_intent.GetWardPrecinctInfo votes_lookup_down
                 "10 Main St, Boston, MA";
               @voting_intent.GetPollingLocation votes_lookup_down
                 "0305"])%list).
Proof.
  split.
  - apply (proj1 (get_polling_location_service_failure
                    (H := votes_geocoder_down)
                    request_with_address [] "10 Main St" ValueError
                    ltac:(vm_compute; reflexivity))).
    reflexivity.
  - apply (proj2 (proj2 (proj2 (get_polling_location_service_failure
                    (H := votes_lookup_down)
                    request_with_address [] "10 Main St" ValueError
                    ltac:(vm_compute; reflexivity))))
             (["10 Main St, Boston, MA"]
                : @voting_intent.candidates votes_lookup_down)
             ("10 Main St, Boston, MA"
                : @voting_intent.candidate votes_lookup_down)
             ("0305" : @voting_intent.ward_precinct votes_lookup_down)).
    + vm_compute. reflexivity.
    + reflexivity.
    + reflexivity.
    + reflexivity.
Defined.

Lemma get_polling_location_bad_location_witness :
  (voting_intent.get_polling_location (H := votes_location_without_address)
     request_with_address []).1 = Raise KeyError
  ∧ (voting_intent.get_polling_location (H := votes_three_fields)
       request_with_address []).1 = Raise IndexError.
Proof.
  split.
  - apply (proj1 (get_polling_location_bad_location
                    (H := votes_location_without_address)
                    request_with_address [] "10 Main St"
                    (["10 Main St, Boston, MA"]
                       : @voting_intent.candidates
                           votes_location_without_address)
                    ("10 Main St, Boston, MA"
                       : @voting_intent.candidate
                           votes_location_without_address)
                    ("0305"
                       : @voting_intent.ward_precinct
                           votes_location_without_address)
                    {["Location Name" := VStr "City Hall"]}
                    ltac:(vm_compute; reflexivity)
                    ltac:(vm_compute; reflexivity)
                    eq_refl eq_refl eq_refl)).
    right. vm_compute. reflexivity.
  - apply (proj2 (get_polling_location_bad_location
                    (H := votes_three_fields)
                    request_with_address [] "10 Main St"
                    (["10 Main St, Boston, MA"]
                       : @voting_intent.candidates votes_three_fields)
                    ("10 Main St, Boston, MA"
                       : @voting_intent.candidate votes_three_fields)
                    ("0305" : @voting_intent.ward_precinct votes_three_fields)
                    (<["Location Name" := VStr "City Hall"]>
                       {["Location Address" := VStr "1 City Hall Sq"]})
                    ltac:(vm_compute; reflexivity)
                    ltac:(vm_compute; reflexivity)
                    eq_refl eq_refl eq_refl)
             (VStr "City Hall") (VStr "1 City Hall Sq") IndexError).
    + vm_compute. reflexivity.
    + vm_compute. reflexivity.
    + vm_compute. reflexivity.
Defined.

Lemma get_polling_location_address_not_a_string_witness :
  voting_intent.get_polling_location (H := boston_votes) request_with_number []
  = (Raise TypeError,
     ([] ++ [voting_intent.received (H := boston_votes)
               request_with_number])%list).
Proof.
  apply (get_polling_location_address_not_a_string (H := boston_votes)
           request_with_number [] 10%Z).
  vm_compute. reflexivity.
Defined.

Lemma get_closest_destination_returns_an_input_witness :
  (get_closest_destination (H := boston) (polls_finder prepare_copy)
     [2; 3; 4]%nat two_polls_measured).2 = two_polls_measured
  ∧ ∀ l, (get_closest_destination (H := boston) (polls_finder prepare_copy)
            [2; 3; 4]%nat two_polls_measured).1 = Ret l →
      l ∈ [2; 3; 4]%nat.
Proof.
  apply (get_closest_destination_returns_an_input (H := boston)
           (polls_finder prepare_copy) [2; 3; 4]%nat two_polls_measured).
Defined.

(** * Rendering the prepared record *)

Section prepared_record.
Context `{FinderServices}.
Variable self : Finder.

(** C6, as the code has it. Once the closest record is merged, [_start]
    applies the preparation function to the merged record and then formats
    the template with that same record as the preparation function left
    it in the store: the record prepared in place is what is rendered, and
    the value the preparation function returns is not looked at. *)
Theorem _start_formats_the_record_as_prepared
    (records records' : list loc) (dests : list Val) (infos : list loc)
    (closest l : loc) (prepared : obj) (st st1 st2 st3 st4 : state)
    (template : string) (d : Dict) (text : string) :
  csv_utils_add_city_and_state_to_records records (address_key self)
    CITY STATE st = (Ret records', st1) →
  get_all_destinations self records' st1 = (Ret dests, st1) →
  g_maps_utils_get_driving_info (origin_address self) (address_key self)
    dests st1 = (Ret infos, st2) →
  get_closest_destination self infos st2 = (Ret closest, st2) →
  get_closest_record_with_driving_info self closest records' st2
  = (Ret (PyDict l), st3) →
  field_formatter self (PyDict l) st3 = (Ret prepared, st4) →
  self_output_speech st4 = Str template →
  heap st4 !! l = Some d →
  py_format template [] d = Ret text →
  _start self records st = (Ret tt, mkState (heap st4) (Str text)).
Proof.
  intros Haugment Hdests Hdriving Hclosest Hmerged Hprepared Hs Hl Hf.
  unfold _start, add_city_and_state_to_records,
    get_driving_times_to_destinations.
  rewrite (bind_Ret _ _ _ _ _ Haugment).
  rewrite (bind_Ret _ _ _ _ _ Hdests).
  rewrite (bind_Ret _ _ _ _ _ Hdriving).
  rewrite (bind_Ret _ _ _ _ _ Hclosest).
  rewrite (bind_Ret _ _ _ _ _ Hmerged).
  rewrite (bind_Ret _ _ _ _ _ Hprepared).
  exact (set_output_speech_formatted self st4 template l d text Hs Hl Hf).
Qed.
End prepared_record.

Lemma _start_formats_the_record_as_prepared_witness :
  _start (H := boston) (polls_finder prepare_in_place) [0; 1]%nat two_polls
  = (Ret tt,
     mkState (heap two_polls_prepared)
       (Str "Vote at the Library, 20 Main St, 0.4 mi away.")).
Proof.
  apply (_start_formats_the_record_as_prepared (H := boston)
           (polls_finder prepare_in_place) [0; 1]%nat [0; 1]%nat
           [VStr "5 Main St"; VStr "20 Main St"] [2; 3]%nat 3%nat 4%nat
           (PyDict 4) two_polls two_polls_augmented two_polls_driven
           two_polls_merged two_polls_prepared polls_template
           (prepare
              (<["City" := VStr "Boston"]> (<["State" := VStr "MA"]>
               (<["Address" := VStr "20 Main St"]>
                (<["Name" := VStr "Library"]>
                 (<["Driving distance" := VNum 644]>
                  (<["Driving distance text" := VStr "0.4 mi"]>
                   {["Driving time text" := VStr "2 mins"]})))))))
           "Vote at the Library, 20 Main St, 0.4 mi away.").
  - vm_compute. reflexivity.
  - vm_compute. reflexivity.
  - vm_compute. reflexivity.
  - vm_compute. reflexivity.
  - vm_compute. reflexivity.
  - vm_compute. reflexivity.
  - vm_compute. reflexivity.
  - vm_compute. reflexivity.
  - vm_compute. reflexivity.
Defined.

(** A preparation function that rewrites the record and returns [None], as
    functions that work in place often do, is rendered just the same. *)
Example _start_in_place_preparation_returning_None :
  _start (H := boston) (polls_finder (returning_None prepare_in_place))
    [0; 1]%nat two_polls
  = (Ret tt,
     mkState (heap two_polls_prepared)
       (Str "Vote at the Library, 20 Main St, 0.4 mi away.")).
Proof. vm_compute. reflexivity. Qed.
